(** * CORS-CLOUD access-control gate: a shallow embedding of the server code

    The development follows the JavaScript sources:
    - [server.js]: [isValidPath], the setup, user-deletion, browse and
      download handlers and the route table;
    - [middleware.js]: [requireAuth], [requireAdmin], [checkSetup] and
      [createRateLimiter];
    - [database.js]: the user and settings tables and the queries the gate
      relies on.

    JavaScript strings are [string]; numbers that hold identifiers, counters
    and millisecond timestamps are [Z]; the rate limiter's [Map] is a
    [gmap string RateWindow]; the settings table is a [gmap] keyed by the
    primary key; the users table is a list of rows in insertion order.
    Asynchronous database calls that may reject are computations in a small
    state-and-exception monad over the store and the log. *)

From Stdlib Require Import ZArith Lia Ascii String List Bool.
From stdpp Require Import base option list gmap strings pretty.

Local Open Scope string_scope.
Local Open Scope Z_scope.

(** ** JavaScript string primitives used by the gate *)

Module JsString.

(** [s.startsWith(p)]. *)
Fixpoint startsWith (s p : string) {struct p} : bool :=
  match p with
  | EmptyString => true
  | String c p' =>
      match s with
      | EmptyString => false
      | String d s' => Ascii.eqb d c && startsWith s' p'
      end
  end.

Arguments startsWith s p : simpl nomatch.

(** [s.replace(/^\/+/, '')]: drop every leading slash. *)
Fixpoint stripLeadingSlashes (s : string) : string :=
  match s with
  | String c s' => if Ascii.eqb c "/" then stripLeadingSlashes s' else s
  | EmptyString => EmptyString
  end.

(** [s.split('/')]. *)
Fixpoint split (s : string) : list string :=
  match s with
  | EmptyString => [EmptyString]
  | String c s' =>
      if Ascii.eqb c "/" then EmptyString :: split s'
      else match split s' with
           | [] => [String c EmptyString]
           | seg :: rest => String c seg :: rest
           end
  end.

(** [segs.join('/')]. *)
Fixpoint join (segs : list string) : string :=
  match segs with
  | [] => EmptyString
  | [seg] => seg
  | seg :: rest => seg +:+ "/" +:+ join rest
  end.

(** No slash occurs in [s]. *)
Fixpoint noSlash (s : string) : bool :=
  match s with
  | EmptyString => true
  | String c s' => negb (Ascii.eqb c "/") && noSlash s'
  end.

(** A path segment that [path.resolve] keeps: not empty, no slash inside. *)
Definition segment (s : string) : Prop := noSlash s = true /\ s <> "".

(** JavaScript truthiness of a possibly missing string. *)
Definition truthy (v : option string) : bool :=
  match v with
  | Some s => negb (String.eqb s "")
  | None => false
  end.

End JsString.

(** ** Node's [path] module (POSIX flavour)

    [path.resolve] and its helper [normalizeString] come from the Node
    runtime, not from the repository. They are modelled on path segments:
    arguments are prepended right to left until an absolute one is met, the
    result is cut at slashes, empty and ["."] segments are dropped, and
    [".."] removes the segment before it. *)

Module Path.

Import JsString.

Definition isAbsolute (p : string) : bool := startsWith p "/".

(** The right-to-left loop of [path.resolve]: [rargs] is the argument list
    reversed, followed by the working directory. The result is the joined
    text and whether an absolute argument was reached. *)
Fixpoint gather (rargs : list string) (acc : string) : string * bool :=
  match rargs with
  | [] => (acc, false)
  | p :: rest =>
      if String.eqb p "" then gather rest acc
      else
        let acc' := p +:+ "/" +:+ acc in
        if isAbsolute p then (acc', true) else gather rest acc'
  end.

(** One separator-delimited segment of [normalizeString]; [stack] holds the
    segments kept so far, last one first. *)
Definition pushSegment (allowAboveRoot : bool) (stack : list string)
    (seg : string) : list string :=
  if String.eqb seg "" then stack
  else if String.eqb seg "." then stack
  else if String.eqb seg ".." then
    match stack with
    | [] => if allowAboveRoot then [".."] else []
    | top :: rest =>
        if String.eqb top ".." then
          (if allowAboveRoot then ".." :: stack else stack)
        else rest
    end
  else seg :: stack.

Definition normalizeSegments (allowAboveRoot : bool) (p : string) : list string :=
  rev (fold_left (pushSegment allowAboveRoot) (split p) []).

Definition normalizeString (p : string) (allowAboveRoot : bool) : string :=
  join (normalizeSegments allowAboveRoot p).

(** The segments of the resolved path. *)
Definition resolveSegments (cwd : string) (args : list string) : list string :=
  let '(joined, absolute) := gather (rev args ++ [cwd]) "" in
  normalizeSegments (negb absolute) joined.

(** [path.resolve(...args)] in a process whose working directory is [cwd]. *)
Definition resolve (cwd : string) (args : list string) : string :=
  let '(joined, absolute) := gather (rev args ++ [cwd]) "" in
  let resolvedPath := normalizeString joined (negb absolute) in
  if absolute then "/" +:+ resolvedPath
  else if String.eqb resolvedPath "" then "." else resolvedPath.

(** Whether [path.resolve] reached an absolute argument. *)
Definition resolvesAbsolute (cwd : string) (args : list string) : bool :=
  snd (gather (rev args ++ [cwd]) "").

(** The components of an absolute path: its non-empty segments. *)
Definition components (p : string) : list string :=
  filter (fun seg => seg <> "") (split p).

(** [isInside dir p]: [p] is [dir] itself or lies below it. *)
Definition isInside (dir p : string) : bool :=
  bool_decide (components dir `prefix_of` components p).

End Path.

(** ** [server.js]: the path guard *)

Section PathGuard.

(** [__dirname], the installation directory of the server, and the working
    directory of the process. *)
Variable dirname : string.
Variable cwd : string.

(** [const NAS_ROOT = path.resolve(__dirname, '..')] *)
Definition NAS_ROOT : string := Path.resolve cwd [dirname; ".."].

(** [path.resolve(__dirname)], the excluded directory. *)
Definition corsPath : string := Path.resolve cwd [dirname].

(** The path [isValidPath] examines. *)
Definition validatedPath (requestedPath : string) : string :=
  Path.resolve cwd [NAS_ROOT; JsString.stripLeadingSlashes requestedPath].

Definition isValidPath (requestedPath : string) : bool :=
  let fullPath := validatedPath requestedPath in
  JsString.startsWith fullPath NAS_ROOT
  && negb (JsString.startsWith fullPath corsPath).

(** The path the browse handler hands to the file system. *)
Definition browseFullPath (requestedPath : string) : string :=
  Path.resolve cwd [NAS_ROOT; JsString.stripLeadingSlashes requestedPath].

(** The path the download handler hands to the file system. *)
Definition downloadFullPath (requestedPath : string) : string :=
  Path.resolve cwd [NAS_ROOT; requestedPath].

End PathGuard.

(** ** Values that cross the HTTP boundary *)

#[warnings="-register-all"]
Inductive Json :=
| JNull
| JBool (b : bool)
| JNum (n : Z)
| JStr (s : string)
| JObj (fields : list (string * Json)).

Inductive Response :=
| RJson (status : Z) (body : Json)          (* res.status(s).json(body) *)
| RSend (status : Z) (text : string)        (* res.status(s).send(text) *)
| RRedirect (location : string)             (* res.redirect(location) *)
| RSendFile (file : string)                 (* res.sendFile(...) *)
| RStream (headers : list (string * string)) (fullPath : string).
                                            (* fs.createReadStream(fullPath).pipe(res) *)

(** The status line a response carries; [res.json] without [res.status]
    answers 200, [res.redirect] answers 302. *)
Definition statusOf (r : Response) : Z :=
  match r with
  | RJson status _ => status
  | RSend status _ => status
  | RRedirect _ => 302
  | RSendFile _ => 200
  | RStream _ _ => 200
  end.

(** A row of the [users] table. *)
Record User := mkUser {
  id : Z;
  username : string;
  email : option string;
  password_hash : string;
  role : string;
  is_active : bool;
  created_by : option Z }.

(** A row of the [settings] table, without its key. *)
Record Setting := mkSetting {
  value : string;
  updated_by : option Z }.

Record Session := mkSession {
  userId : option Z;
  sessionUsername : option string;
  sessionRole : option string }.

Record Request := mkRequest {
  path : string;                 (* req.path *)
  ip : string;                   (* req.ip *)
  session : option Session;      (* req.session *)
  user : option User;            (* req.user *)
  bodyUsername : option string;  (* req.body.username *)
  bodyEmail : option string;     (* req.body.email *)
  bodyPassword : option string;  (* req.body.password *)
  paramsId : string;             (* req.params.id *)
  params0 : string;              (* req.params[0] *)
  queryPath : option string;     (* req.query.path *)
  t : string -> string }.        (* req.t *)

Definition withUser (req : Request) (u : User) : Request :=
  mkRequest (path req) (ip req) (session req) (Some u) (bodyUsername req)
    (bodyEmail req) (bodyPassword req) (paramsId req) (params0 req)
    (queryPath req) (t req).

(** What a middleware does with a request: call [next()] or answer. *)
Inductive Step :=
| Next (req : Request)
| Respond (r : Response).

(** ** [logger.js] *)

Inductive LogEntry :=
| LogAuth (action : string) (who : option string) (addr : string) (success : bool)
| LogFileAccess (action filepath : string) (who addr : string) (success : bool)
| LogAdmin (action adminUser targetUser addr : string)
| LogError (error context : string) (who : option string) (addr : option string)
| LogSystem (message : string).

(** ** The store, the log and the monad of asynchronous calls *)

Record World := mkWorld {
  users : list User;
  settings : gmap string Setting;
  fault : option string;   (* the error the sqlite driver reports, if it is failing *)
  logs : list LogEntry }.

Definition setUsers (us : list User) (w : World) : World :=
  mkWorld us (settings w) (fault w) (logs w).
Definition setSettings (ss : gmap string Setting) (w : World) : World :=
  mkWorld (users w) ss (fault w) (logs w).
Definition addLog (e : LogEntry) (w : World) : World :=
  mkWorld (users w) (settings w) (fault w) (logs w ++ [e]).

(** A promise either resolves or rejects. *)
Inductive Outcome (A : Type) :=
| Resolved (a : A)
| Rejected (error : string).
Arguments Resolved {A} a.
Arguments Rejected {A} error.

Definition M (A : Type) : Type := World -> Outcome A * World.

#[global] Instance M_ret : MRet M := fun A a w => (Resolved a, w).
#[global] Instance M_bind : MBind M := fun A B k m w =>
  match m w with
  | (Resolved a, w') => k a w'
  | (Rejected e, w') => (Rejected e, w')
  end.

Definition throw {A} (e : string) : M A := fun w => (Rejected e, w).

(** [try { body } catch (error) { handler }] *)
Definition tryCatch {A} (body : M A) (handler : string -> M A) : M A :=
  fun w =>
    match body w with
    | (Resolved a, w') => (Resolved a, w')
    | (Rejected e, w') => handler e w'
    end.

Definition log (e : LogEntry) : M unit := fun w => (Resolved tt, addLog e w).

Definition logAuth (action : string) (who : option string) (addr : string)
    (success : bool) : M unit := log (LogAuth action who addr success).
Definition logFileAccess (action filepath who addr : string) (success : bool)
    : M unit := log (LogFileAccess action filepath who addr success).
Definition logAdmin (action adminUser targetUser addr : string) : M unit :=
  log (LogAdmin action adminUser targetUser addr).
Definition logError (error context : string) (who addr : option string)
    : M unit := log (LogError error context who addr).
Definition logSystem (message : string) : M unit := log (LogSystem message).

(** ** [database.js] *)

Module Database.

(** A call into the sqlite driver: when the driver is failing the promise
    rejects with its error, after the data layer logged it under [context]. *)
Definition query {A} (context : string) (run : M A) : M A :=
  fun w =>
    match fault w with
    | Some err => (Rejected err, addLog (LogError err context None None) w)
    | None => run w
    end.

Definition isAdminRole (r : string) : bool := String.eqb r "admin".

(** [AUTOINCREMENT]: one more than the largest identifier handed out. Rows
    are never removed, so that is the largest identifier in the table.
    [this.lastID] is this number as long as the identifiers stay below
    2^53, the range a JavaScript number holds exactly. *)
Definition lastID (us : list User) : Z :=
  1 + fold_right Z.max 0 (map id us).

(** [createUser(username, email, password, role, createdBy)]; [bcryptHash]
    stands for [bcrypt.hash(password, 12)]. The insert fails on the [UNIQUE]
    constraint of the user name. *)
Definition createUser (bcryptHash : string -> string) (name : string)
    (mail : option string) (password : string) (userRole : string)
    (createdBy : option Z) : M User :=
  query ("Failed to create user: " +:+ name)
    (fun w =>
       if existsb (fun u => String.eqb (username u) name) (users w) then
         (Rejected "SQLITE_CONSTRAINT: UNIQUE constraint failed: users.username",
          addLog (LogError "SQLITE_CONSTRAINT: UNIQUE constraint failed: users.username"
                    ("Failed to create user: " +:+ name) None None) w)
       else
         let row := mkUser (lastID (users w)) name mail (bcryptHash password)
                      userRole true createdBy in
         (Resolved row,
          addLog (LogSystem ("User created: " +:+ name))
            (setUsers (users w ++ [row]) w))).

(** [SELECT * FROM users WHERE id = ? AND is_active = 1] *)
Definition getUserById (uid : Z) : M (option User) :=
  query ("Failed to get user by id: " +:+ pretty uid)
    (fun w => (Resolved (find (fun u => Z.eqb (id u) uid && is_active u) (users w)), w)).

(** The row test of [UPDATE users SET is_active = 0 WHERE id = ? AND
    role != "admin"]. The bound value is the text of the route parameter;
    [sqlInteger] is the conversion sqlite applies when it compares that text
    with the integer column. *)
Definition deleteMatches (sqlInteger : string -> option Z) (target : string)
    (u : User) : bool :=
  match sqlInteger target with
  | Some n => Z.eqb (id u) n && negb (isAdminRole (role u))
  | None => false
  end.

Definition deactivate (u : User) : User :=
  mkUser (id u) (username u) (email u) (password_hash u) (role u) false
    (created_by u).

(** The users table after the update statement of [deleteUser]. *)
Definition deactivateMatching (sqlInteger : string -> option Z) (target : string)
    (us : list User) : list User :=
  map (fun u => if deleteMatches sqlInteger target u then deactivate u else u) us.

(** [deleteUser(id)] resolves to [this.changes], the number of rows the
    update matched. *)
Definition deleteUser (sqlInteger : string -> option Z) (target : string) : M Z :=
  query ("Failed to delete user: " +:+ target)
    (fun w =>
       let hit := deleteMatches sqlInteger target in
       (Resolved (Z.of_nat (length (filter (fun u => hit u = true) (users w)))),
        addLog (LogSystem ("User deactivated: " +:+ target))
          (setUsers (deactivateMatching sqlInteger target (users w)) w))).

(** [SELECT value FROM settings WHERE key = ?] *)
Definition getSetting (key : string) : M (option string) :=
  query ("Failed to get setting: " +:+ key)
    (fun w => (Resolved (value <$> settings w !! key), w)).

(** [INSERT OR REPLACE INTO settings ...] *)
Definition setSetting (key val : string) (updatedBy : option Z) : M unit :=
  query ("Failed to set setting: " +:+ key)
    (fun w =>
       (Resolved tt,
        addLog (LogSystem ("Setting updated: " +:+ key))
          (setSettings (<[key := mkSetting val updatedBy]> (settings w)) w))).

Definition isSetupCompleted : M bool :=
  setupStatus ← getSetting "setup_completed";
  mret (bool_decide (setupStatus = Some "true")).

(** [SELECT COUNT( * ) ... WHERE role = "admin" AND is_active = 1], then
    [row.count > 0]. *)
Definition hasAdminUser : M bool :=
  query "Failed to check admin users"
    (fun w =>
       (Resolved (Z.of_nat (length (filter
                    (fun u => isAdminRole (role u) && is_active u = true) (users w))) >? 0),
        w)).

(** [SELECT * FROM users WHERE username = ? AND is_active = 1] *)
Definition getUserByUsername (name : string) : M (option User) :=
  query ("Failed to get user: " +:+ name)
    (fun w =>
       (Resolved (find (fun u => String.eqb (username u) name && is_active u) (users w)),
        w)).

(** What [validatePassword] resolves to: [{ valid, user }]. *)
Record Validation := mkValidation {
  valid : bool;
  validUser : option User }.

(** [validatePassword(username, password)]; [bcryptCompare password hash]
    stands for [bcrypt.compare]. *)
Definition validatePassword (bcryptCompare : string -> string -> bool)
    (name password : string) : M Validation :=
  found ← getUserByUsername name;
  match found with
  | None => mret (mkValidation false None)
  | Some u =>
      let result := bcryptCompare password (password_hash u) in
      mret (mkValidation result (if result then Some u else None))
  end.

(** [UPDATE users SET last_login = CURRENT_TIMESTAMP WHERE id = ?]. The
    column [last_login] is not among the columns of [User], so the rows of
    the model stay as they are; the call still fails with the driver. *)
Definition updateLastLogin (uid : Z) : M unit :=
  query ("Failed to update last login for user: " +:+ pretty uid)
    (fun w => (Resolved tt, w)).

End Database.

(** ** [middleware.js] *)

Import JsString.

(** [req.session && req.session.userId]: the identifier when it is truthy. *)
Definition sessionUserId (req : Request) : option Z :=
  match session req with
  | Some s =>
      match userId s with
      | Some n => if Z.eqb n 0 then None else Some n
      | None => None
      end
  | None => None
  end.

(** [req.session.username] *)
Definition sessionName (req : Request) : option string :=
  match session req with
  | Some s => sessionUsername s
  | None => None
  end.

Definition authenticationRequired : Json :=
  JObj [("success", JBool false);
        ("message", JStr "Authentication required");
        ("redirect", JStr "/login")].

Definition requireAuth (req : Request) : M Step :=
  match sessionUserId req with
  | Some _ => mret (Next req)
  | None =>
      if startsWith (path req) "/api/" then
        mret (Respond (RJson 401 authenticationRequired))
      else mret (Respond (RRedirect "/login"))
  end.

Definition adminDenied (req : Request) : M Step :=
  logAuth "ADMIN_ACCESS_DENIED" (sessionName req) (ip req) false;;
  mret (Respond (RJson 403
    (JObj [("success", JBool false);
           ("message", JStr "Admin privileges required")]))).

Definition requireAdmin (req : Request) : M Step :=
  match sessionUserId req with
  | None => mret (Respond (RJson 401 authenticationRequired))
  | Some uid =>
      tryCatch
        (found ← Database.getUserById uid;
         match found with
         | None => adminDenied req
         | Some u =>
             if negb (Database.isAdminRole (role u)) then adminDenied req
             else mret (Next (withUser req u))
         end)
        (fun error =>
           logError error "Admin middleware error" (sessionName req) (Some (ip req));;
           mret (Respond (RJson 500
             (JObj [("success", JBool false);
                    ("message", JStr "Internal server error")]))))
  end.

(** The paths [checkSetup] lets through while setup is required. *)
Definition setupAllowList (p : string) : bool :=
  String.eqb p "/setup" || startsWith p "/api/setup"
  || startsWith p "/api/translations" || startsWith p "/api/language"
  || startsWith p "/assets/".

Definition setupRequiredBody : Json :=
  JObj [("success", JBool false);
        ("requiresSetup", JBool true);
        ("message", JStr "Initial setup required");
        ("redirect", JStr "/setup")].

Definition checkSetup (req : Request) : M Step :=
  tryCatch
    (isSetupCompleted ← Database.isSetupCompleted;
     hasAdmin ← Database.hasAdminUser;
     if negb isSetupCompleted || negb hasAdmin then
       if setupAllowList (path req) then mret (Next req)
       else if startsWith (path req) "/api/" then
         mret (Respond (RJson 200 setupRequiredBody))
       else mret (Respond (RRedirect "/setup"))
     else if String.eqb (path req) "/setup" || startsWith (path req) "/api/setup" then
       if startsWith (path req) "/api/" then
         mret (Respond (RJson 403
           (JObj [("success", JBool false);
                  ("message", JStr "Setup already completed")])))
       else mret (Respond (RRedirect "/"))
     else mret (Next req))
    (fun error =>
       logError error "Setup check middleware error" None None;;
       if startsWith (path req) "/api/" then
         mret (Respond (RJson 500
           (JObj [("success", JBool false);
                  ("message", JStr "Internal server error")])))
       else mret (Respond (RRedirect "/setup"))).

(** *** The rate limiter *)

Record RateWindow := mkWindow {
  count : Z;
  resetTime : Z }.

(** The middleware [createRateLimiter(windowMs, max)] returns, run for the
    client [clientId] at time [now] on the limiter's [clients] map. It gives
    the map afterwards, what it logged and whether it called [next()]. *)
Definition createRateLimiter (windowMs max : Z) (req : Request) (now : Z)
    (clients : gmap string RateWindow)
    : gmap string RateWindow * list LogEntry * Step :=
  let clientId := ip req in
  match clients !! clientId with
  | None =>
      (<[clientId := mkWindow 1 (now + windowMs)]> clients, [], Next req)
  | Some client =>
      let client' :=
        if now >? resetTime client then mkWindow 1 (now + windowMs)
        else mkWindow (count client + 1) (resetTime client) in
      let clients' := <[clientId := client']> clients in
      if count client' >? max then
        (clients',
         [LogAuth "RATE_LIMIT_EXCEEDED"
            (if truthy (sessionName req) then sessionName req else Some "anonymous")
            (ip req) false],
         Respond (RJson 429
           (JObj [("success", JBool false);
                  ("message", JStr "Too many requests. Please wait a few minutes.")])))
      else (clients', [], Next req)
  end.

(** The periodic sweep installed by [setInterval]. *)
Definition sweep (now : Z) (clients : gmap string RateWindow)
    : gmap string RateWindow :=
  filter (fun kv => ¬ (now > resetTime kv.2)) clients.

(** The three limiters of the module. *)
Definition loginLimiter := createRateLimiter (15 * 60 * 1000) 10.
Definition generalLimiter := createRateLimiter (15 * 60 * 1000) 1000.
Definition fileLimiter := createRateLimiter (60 * 1000) 500.

(** [attachUser]: the global middleware that sets [req.user] when the
    session names an active user. *)
Definition attachUser (req : Request) : M Request :=
  match sessionUserId req with
  | Some uid =>
      tryCatch
        (found ← Database.getUserById uid;
         match found with
         | Some u => mret (withUser req u)
         | None => mret req
         end)
        (fun error =>
           logError error "Attach user middleware error" (sessionName req)
             (Some (ip req));;
           mret req)
  | None => mret req
  end.

(** ** [server.js]: handlers *)

(** [req.user.<field>]: reading a field of a missing user throws. *)
Definition reqUser (req : Request) : M User :=
  match user req with
  | Some u => mret u
  | None => throw "TypeError: Cannot read properties of undefined"
  end.

(** [app.post('/api/setup', ...)] *)
Definition setupHandler (bcryptHash : string -> string) (req : Request)
    : M Response :=
  tryCatch
    (isSetupCompleted ← Database.isSetupCompleted;
     hasAdmin ← Database.hasAdminUser;
     if isSetupCompleted && hasAdmin then
       mret (RJson 400
         (JObj [("success", JBool false);
                ("message", JStr "Setup already completed")]))
     else if negb (truthy (bodyUsername req)) || negb (truthy (bodyPassword req)) then
       mret (RJson 400
         (JObj [("success", JBool false);
                ("message", JStr "Username and password are required")]))
     else
       admin ← Database.createUser bcryptHash (default "" (bodyUsername req))
                 (bodyEmail req) (default "" (bodyPassword req)) "admin" None;
       Database.setSetting "setup_completed" "true" (Some (id admin));;
       logSystem "Initial setup completed";;
       mret (RJson 200
         (JObj [("success", JBool true);
                ("message", JStr (t req "setupComplete"));
                ("user", JObj [("id", JNum (id admin));
                               ("username", JStr (username admin));
                               ("role", JStr (role admin))])])))
    (fun error =>
       logError error "Setup error" (Some "") (Some (ip req));;
       mret (RJson 500
         (JObj [("success", JBool false);
                ("message", JStr (t req "setupError"))]))).

(** [userId == req.user.id] for the text of a route parameter and a number;
    [jsNumber] is JavaScript's conversion of the text to a number. *)
Definition looseEq (jsNumber : string -> option Z) (text : string) (n : Z) : bool :=
  match jsNumber text with
  | Some m => Z.eqb m n
  | None => false
  end.

(** [app.delete('/api/admin/users/:id', requireAdmin, ...)], the handler. *)
Definition deleteUserHandler (jsNumber sqlInteger : string -> option Z)
    (req : Request) : M Response :=
  tryCatch
    (let target := paramsId req in
     me ← reqUser req;
     if looseEq jsNumber target (id me) then
       mret (RJson 400
         (JObj [("success", JBool false);
                ("message", JStr "Cannot delete your own account")]))
     else
       changes ← Database.deleteUser sqlInteger target;
       if Z.eqb changes 0 then
         mret (RJson 404
           (JObj [("success", JBool false);
                  ("message", JStr "User not found")]))
       else
         logAdmin "USER_DELETED" (username me) ("ID:" +:+ target) (ip req);;
         mret (RJson 200
           (JObj [("success", JBool true);
                  ("message", JStr (t req "userDeleted"))])))
    (fun error =>
       me ← reqUser req;
       logError error "Delete user error" (Some (username me)) (Some (ip req));;
       mret (RJson 500
         (JObj [("success", JBool false);
                ("message", JStr (t req "internalError"))]))).

(** The double-quote character of the [Content-Disposition] header. *)
Definition dquote : string := String (Ascii.ascii_of_nat 34) EmptyString.

(** What [fs.existsSync] and [fs.statSync] see at a path. *)
Inductive FsNode :=
| FsFile (size : Z)
| FsDirectory.

(** [path.basename] of a resolved path. *)
Definition basename (p : string) : string :=
  List.last (Path.components p) "".

(** [app.get('/download/*', checkSetup, requireAuth, ...)], the handler.
    [fs] is the file system, [mimeGetType] is [mime.getType]. *)
Definition downloadHandler (dirname cwd : string)
    (fs : string -> option FsNode) (mimeGetType : string -> option string)
    (req : Request) : M Response :=
  tryCatch
    (let requestedPath := params0 req in
     if negb (isValidPath dirname cwd requestedPath) then
       me ← reqUser req;
       logFileAccess "DOWNLOAD_DENIED" requestedPath (username me) (ip req) false;;
       mret (RSend 403 (t req "fileAccessDenied"))
     else
       let fullPath := downloadFullPath dirname cwd requestedPath in
       match fs fullPath with
       | None =>
           me ← reqUser req;
           logFileAccess "DOWNLOAD_NOT_FOUND" requestedPath (username me) (ip req) false;;
           mret (RSend 404 (t req "fileNotFound"))
       | Some FsDirectory =>
           me ← reqUser req;
           logFileAccess "DOWNLOAD_DIRECTORY" requestedPath (username me) (ip req) false;;
           mret (RSend 400 (t req "directoryError"))
       | Some (FsFile size) =>
           let fileName := basename fullPath in
           let mimeType := default "application/octet-stream" (mimeGetType fullPath) in
           me ← reqUser req;
           logFileAccess "DOWNLOAD_SUCCESS" requestedPath (username me) (ip req) true;;
           mret (RStream
             [("Content-Disposition",
               "attachment; filename=" +:+ dquote +:+ fileName +:+ dquote);
              ("Content-Type", mimeType);
              ("Content-Length", pretty size)]
             fullPath)
       end)
    (fun error =>
       me ← reqUser req;
       logError error "Download file error" (Some (username me)) (Some (ip req));;
       mret (RSend 500 (t req "internalError"))).

(** ** [server.js]: the route table *)

Inductive Route :=
| GetSetup            (* app.get('/setup', checkSetup, ...) *)
| GetLogin            (* app.get('/login', ...) *)
| GetAdmin            (* app.get('/admin', requireAdmin, ...) *)
| PostApiSetup        (* app.post('/api/setup', ...) *)
| PostAuthLogin       (* app.post('/api/auth/login', ...) *)
| PostAuthLogout      (* app.post('/api/auth/logout', requireAuth, ...) *)
| GetAdminUsers       (* app.get('/api/admin/users', requireAdmin, ...) *)
| PostAdminUsers      (* app.post('/api/admin/users', requireAdmin, ...) *)
| PutAdminUser        (* app.put('/api/admin/users/:id', requireAdmin, ...) *)
| DeleteAdminUser     (* app.delete('/api/admin/users/:id', requireAdmin, ...) *)
| GetApiSettings      (* app.get('/api/settings', ...) *)
| PutAdminSettings    (* app.put('/api/admin/settings', requireAdmin, ...) *)
| GetApiTranslations  (* app.get('/api/translations', ...) *)
| PutApiLanguage      (* app.put('/api/language', ...) *)
| GetAuthStatus       (* app.get('/api/auth/status', ...) *)
| GetRoot             (* app.get('/', checkSetup, requireAuth, ...) *)
| GetApiBrowse        (* app.get('/api/browse', checkSetup, requireAuth, ...) *)
| GetDownload.        (* app.get('/download/*', checkSetup, requireAuth, ...) *)

Inductive Middleware := CheckSetup | RequireAuth | RequireAdmin.

(** The middleware each route registers before its handler. *)
Definition routeMiddleware (r : Route) : list Middleware :=
  match r with
  | GetSetup => [CheckSetup]
  | GetLogin => []
  | GetAdmin => [RequireAdmin]
  | PostApiSetup => []
  | PostAuthLogin => []
  | PostAuthLogout => [RequireAuth]
  | GetAdminUsers => [RequireAdmin]
  | PostAdminUsers => [RequireAdmin]
  | PutAdminUser => [RequireAdmin]
  | DeleteAdminUser => [RequireAdmin]
  | GetApiSettings => []
  | PutAdminSettings => [RequireAdmin]
  | GetApiTranslations => []
  | PutApiLanguage => []
  | GetAuthStatus => []
  | GetRoot => [CheckSetup; RequireAuth]
  | GetApiBrowse => [CheckSetup; RequireAuth]
  | GetDownload => [CheckSetup; RequireAuth]
  end.

Definition runMiddleware (m : Middleware) (req : Request) : M Step :=
  match m with
  | CheckSetup => checkSetup req
  | RequireAuth => requireAuth req
  | RequireAdmin => requireAdmin req
  end.

(** Express runs the middleware of a route in order; the first one that
    answers ends the request. *)
Fixpoint runChain (ms : list Middleware) (req : Request) : M Step :=
  match ms with
  | [] => mret (Next req)
  | m :: rest =>
      step ← runMiddleware m req;
      match step with
      | Next req' => runChain rest req'
      | Respond r => mret (Respond r)
      end
  end.

(** A request that Express matched to route [r]: [Next req'] means the
    handler of [r] runs on [req']. *)
Definition enterRoute (r : Route) (req : Request) : M Step :=
  runChain (routeMiddleware r) req.

(** The state of the setup gate, read from the store. *)
Definition setupCompleted (w : World) : bool :=
  bool_decide (value <$> settings w !! "setup_completed" = Some "true").

Definition hasActiveAdmin (w : World) : bool :=
  existsb (fun u => Database.isAdminRole (role u) && is_active u) (users w).

Definition operational (w : World) : bool :=
  setupCompleted w && hasActiveAdmin w.

(** [app.delete('/api/admin/users/:id', requireAdmin, ...)]: the middleware,
    then the handler. *)
Definition deleteUserRoute (jsNumber sqlInteger : string -> option Z)
    (req : Request) : M Response :=
  step ← requireAdmin req;
  match step with
  | Next req' => deleteUserHandler jsNumber sqlInteger req'
  | Respond r => mret r
  end.

(** The store after a sequence of deletion requests, served one by one. *)
Definition afterDeletions (jsNumber sqlInteger : string -> option Z)
    (reqs : list Request) (w : World) : World :=
  fold_left (fun w' req => snd (deleteUserRoute jsNumber sqlInteger req w')) reqs w.

(** ** The rate limiter over time *)

(** What happens to one limiter: a request arrives, or the sweep fires. *)
Inductive LimiterEvent :=
| Arrive (req : Request) (now : Z)
| Sweep (now : Z).

(** The limiter run over a sequence of events: the final map and, for each
    request in order, its client and what the limiter did with it. *)
Fixpoint limiterRun (windowMs max : Z) (events : list LimiterEvent)
    (clients : gmap string RateWindow)
    : gmap string RateWindow * list (string * Step) :=
  match events with
  | [] => (clients, [])
  | Arrive req now :: rest =>
      let '(clients', _, step) := createRateLimiter windowMs max req now clients in
      let '(final, steps) := limiterRun windowMs max rest clients' in
      (final, (ip req, step) :: steps)
  | Sweep now :: rest => limiterRun windowMs max rest (sweep now clients)
  end.

(** The limiter's decisions for one client, in order. *)
Definition decisionsFor (clientId : string) (steps : list (string * Step)) : list Step :=
  snd <$> filter (fun cs => cs.1 = clientId) steps.

(** An event that keeps the client's current window, which ends at
    [windowEnd]: a request of that client, or a sweep, not later than
    [windowEnd]. Requests of other clients are unconstrained. *)
Definition withinWindow (clientId : string) (windowEnd : Z) (e : LimiterEvent) : Prop :=
  match e with
  | Arrive req now => ip req = clientId -> now <= windowEnd
  | Sweep now => now <= windowEnd
  end.

Definition allowed (s : Step) : bool :=
  match s with
  | Next _ => true
  | Respond _ => false
  end.

Definition rateLimited (s : Step) : bool :=
  match s with
  | Respond r => Z.eqb (statusOf r) 429
  | Next _ => false
  end.

(** The bodies of the refusals of the deletion handler. *)
Definition cannotDeleteOwnAccount : Json :=
  JObj [("success", JBool false); ("message", JStr "Cannot delete your own account")].

Definition userNotFound : Json :=
  JObj [("success", JBool false); ("message", JStr "User not found")].

(** What a deletion may do to a row: leave it, or deactivate it when its
    role is not [admin]. *)
Definition keptOrDeactivated (u u' : User) : Prop :=
  u' = u \/ (u' = Database.deactivate u /\ role u <> "admin").

(** The bodies of the 403 and 500 answers of [requireAdmin]. *)
Definition adminPrivilegesRequired : Json :=
  JObj [("success", JBool false); ("message", JStr "Admin privileges required")].

Definition internalServerError : Json :=
  JObj [("success", JBool false); ("message", JStr "Internal server error")].

(** ** The setup operation, seen from the store *)

Definition setupAlreadyCompleted : Json :=
  JObj [("success", JBool false); ("message", JStr "Setup already completed")].

(** The store after a successful setup submission. *)
Definition afterSetup (admin : User) (w : World) : World :=
  addLog (LogSystem "Initial setup completed")
    (addLog (LogSystem "Setting updated: setup_completed")
       (setSettings
          (<["setup_completed" := mkSetting "true" (Some (id admin))]> (settings w))
          (addLog (LogSystem ("User created: " +:+ username admin))
             (setUsers (users w ++ [admin]) w)))).

(** ** [server.js]: login and account creation *)

(** [req.session.userId = ...; req.session.username = ...; req.session.role = ...] *)
Definition withSession (req : Request) (s : Session) : Request :=
  mkRequest (path req) (ip req) (Some s) (user req) (bodyUsername req)
    (bodyEmail req) (bodyPassword req) (paramsId req) (params0 req)
    (queryPath req) (t req).

Definition invalidCredentials (req : Request) : Json :=
  JObj [("success", JBool false); ("message", JStr (t req "invalidCredentials"))].

(** The [catch] block of the login handler. *)
Definition loginError (req : Request) (error : string) : M Response :=
  logError error "Login error" (bodyUsername req) (Some (ip req));;
  mret (RJson 500
    (JObj [("success", JBool false); ("message", JStr (t req "internalError"))])).

(** [app.post('/api/auth/login', ...)]. The result carries the request with
    the session as the handler leaves it: the three assignments to
    [req.session] stay in place when a later statement throws. *)
Definition loginHandler (bcryptCompare : string -> string -> bool)
    (req : Request) : M (Response * Request) :=
  tryCatch
    (if negb (truthy (bodyUsername req)) || negb (truthy (bodyPassword req)) then
       mret (RJson 400 (invalidCredentials req), req)
     else
       let name := default "" (bodyUsername req) in
       validation ← Database.validatePassword bcryptCompare name
                      (default "" (bodyPassword req));
       if negb (Database.valid validation) then
         logAuth "LOGIN_FAILED" (Some name) (ip req) false;;
         mret (RJson 401 (invalidCredentials req), req)
       else
         match Database.validUser validation, session req with
         | Some u, Some _ =>
             let req' := withSession req
                           (mkSession (Some (id u)) (Some (username u)) (Some (role u))) in
             tryCatch
               (Database.updateLastLogin (id u);;
                logAuth "LOGIN_SUCCESS" (Some name) (ip req) true;;
                mret (RJson 200
                        (JObj [("success", JBool true);
                               ("message", JStr (t req "loginSuccess"));
                               ("user", JObj [("id", JNum (id u));
                                              ("username", JStr (username u));
                                              ("role", JStr (role u))])]),
                      req'))
               (fun error => r ← loginError req error; mret (r, req'))
         | _, _ => throw "TypeError: Cannot read properties of undefined"
         end)
    (fun error => r ← loginError req error; mret (r, req)).

(** [app.post('/api/admin/users', requireAdmin, ...)], the handler;
    [bodyRole] is [req.body.role]. *)
Definition createUserHandler (bcryptHash : string -> string)
    (bodyRole : option string) (req : Request) : M Response :=
  tryCatch
    (if negb (truthy (bodyUsername req)) || negb (truthy (bodyPassword req)) then
       mret (RJson 400
         (JObj [("success", JBool false);
                ("message", JStr "Username and password are required")]))
     else
       let name := default "" (bodyUsername req) in
       me ← reqUser req;
       created ← Database.createUser bcryptHash name (bodyEmail req)
                   (default "" (bodyPassword req))
                   (if truthy bodyRole then default "" bodyRole else "user")
                   (Some (id me));
       logAdmin "USER_CREATED" (username me) name (ip req);;
       mret (RJson 200
         (JObj [("success", JBool true);
                ("message", JStr (t req "userCreated"));
                ("user", JObj [("id", JNum (id created));
                               ("username", JStr (username created));
                               ("role", JStr (role created))])])))
    (fun error =>
       me ← reqUser req;
       logError error "Create user error" (Some (username me)) (Some (ip req));;
       mret (RJson 500
         (JObj [("success", JBool false);
                ("message", JStr (t req "internalError"))]))).

(** [app.get('/download/*', checkSetup, requireAuth, ...)]: the middleware,
    then the handler. *)
Definition downloadRoute (dirname cwd : string) (fs : string -> option FsNode)
    (mimeGetType : string -> option string) (req : Request) : M Response :=
  step ← enterRoute GetDownload req;
  match step with
  | Next req' => downloadHandler dirname cwd fs mimeGetType req'
  | Respond r => mret r
  end.

(** The body of [checkSetup] over any two store queries, so that each one
    may resolve or reject on its own. *)
Definition checkSetupWith (isSetupCompletedQuery hasAdminUserQuery : M bool)
    (req : Request) : M Step :=
  tryCatch
    (isSetupCompleted ← isSetupCompletedQuery;
     hasAdmin ← hasAdminUserQuery;
     if negb isSetupCompleted || negb hasAdmin then
       if setupAllowList (path req) then mret (Next req)
       else if startsWith (path req) "/api/" then
         mret (Respond (RJson 200 setupRequiredBody))
       else mret (Respond (RRedirect "/setup"))
     else if String.eqb (path req) "/setup" || startsWith (path req) "/api/setup" then
       if startsWith (path req) "/api/" then
         mret (Respond (RJson 403
           (JObj [("success", JBool false);
                  ("message", JStr "Setup already completed")])))
       else mret (Respond (RRedirect "/"))
     else mret (Next req))
    (fun error =>
       logError error "Setup check middleware error" None None;;
       if startsWith (path req) "/api/" then
         mret (Respond (RJson 500
           (JObj [("success", JBool false);
                  ("message", JStr "Internal server error")])))
       else mret (Respond (RRedirect "/setup"))).

(** The body of the login handler over any behaviour of
    [database.updateLastLogin], so that the update may fail after the
    password was validated. *)
Definition loginHandlerWith (updateLastLogin : Z -> M unit)
    (bcryptCompare : string -> string -> bool) (req : Request)
    : M (Response * Request) :=
  tryCatch
    (if negb (truthy (bodyUsername req)) || negb (truthy (bodyPassword req)) then
       mret (RJson 400 (invalidCredentials req), req)
     else
       let name := default "" (bodyUsername req) in
       validation ← Database.validatePassword bcryptCompare name
                      (default "" (bodyPassword req));
       if negb (Database.valid validation) then
         logAuth "LOGIN_FAILED" (Some name) (ip req) false;;
         mret (RJson 401 (invalidCredentials req), req)
       else
         match Database.validUser validation, session req with
         | Some u, Some _ =>
             let req' := withSession req
                           (mkSession (Some (id u)) (Some (username u)) (Some (role u))) in
             tryCatch
               (updateLastLogin (id u);;
                logAuth "LOGIN_SUCCESS" (Some name) (ip req) true;;
                mret (RJson 200
                        (JObj [("success", JBool true);
                               ("message", JStr (t req "loginSuccess"));
                               ("user", JObj [("id", JNum (id u));
                                              ("username", JStr (username u));
                                              ("role", JStr (role u))])]),
                      req'))
               (fun error => r ← loginError req error; mret (r, req'))
         | _, _ => throw "TypeError: Cannot read properties of undefined"
         end)
    (fun error => r ← loginError req error; mret (r, req)).

(** ** Vocabulary of the further properties *)

(** A segment of a resolved absolute path: kept, and neither [.] nor [..]. *)
Definition cleanSegment (s : string) : Prop :=
  segment s /\ s <> "." /\ s <> "..".

(** The constraints of the [users] table: the primary key and the [UNIQUE]
    user name; [AUTOINCREMENT] identifiers start at 1. *)
Definition wellFormed (us : list User) : Prop :=
  NoDup (map id us) /\ NoDup (map username us) /\ Forall (fun u => 1 <= id u) us.

(** The events a client's window depends on: its own requests and the sweeps. *)
Definition concerns (clientId : string) (e : LimiterEvent) : bool :=
  match e with
  | Arrive req _ => bool_decide (ip req = clientId)
  | Sweep _ => true
  end.

(** ** Sample data used by the examples *)

Module Sample.

(** An installation under [/srv/nas/CORS], so that [NAS_ROOT] is [/srv/nas]. *)
Definition dirname : string := "/srv/nas/CORS".
Definition cwd : string := "/srv/nas/CORS".

Definition translate (key : string) : string := key.

Definition request (p : string) (s : option Session) (u : option User) : Request :=
  mkRequest p "10.0.0.7" s u None None None "" "" None translate.

(** The settings [initializeDefaultSettings] inserts into an empty store. *)
Definition defaultSettings : gmap string Setting :=
  <["default_language" := mkSetting "en" None]>
  (<["server_name" := mkSetting "NAS CORS Server" None]>
  (<["setup_completed" := mkSetting "false" None]>
  (<["max_file_size" := mkSetting "104857600" None]>
  (<["allowed_file_types" := mkSetting "*" None]> ∅)))).

Definition freshWorld : World := mkWorld [] defaultSettings None [].

Definition root : User := mkUser 1 "root" None "$2b$12$root" "admin" true None.
Definition alice : User := mkUser 2 "alice" None "$2b$12$alice" "admin" true (Some 1).
Definition bob : User := mkUser 3 "bob" None "$2b$12$bob" "user" true (Some 1).

Definition rootSession : Session := mkSession (Some 1) (Some "root") (Some "admin").
Definition bobSession : Session := mkSession (Some 3) (Some "bob") (Some "user").

(** A store after setup: two administrators, one user, flag set. *)
Definition liveWorld : World :=
  mkWorld [root; alice; bob]
    (<["setup_completed" := mkSetting "true" (Some 1)]> defaultSettings) None [].

(** A store where an administrator exists and the completion flag is unset. *)
Definition halfWorld : World := mkWorld [root; alice; bob] defaultSettings None [].

(** The store with a failing driver. *)
Definition brokenWorld : World :=
  mkWorld [root; alice; bob] defaultSettings (Some "SQLITE_IOERR: disk I/O error") [].

(** [carol] was deactivated after she logged in; [dave] never existed. *)
Definition carol : User := mkUser 5 "carol" None "$2b$12$carol" "admin" false (Some 1).
Definition carolSession : Session := mkSession (Some 5) (Some "carol") (Some "admin").
Definition daveSession : Session := mkSession (Some 9) (Some "dave") (Some "admin").
Definition staffWorld : World :=
  mkWorld [root; alice; bob; carol] defaultSettings None [].

(** Ten more login attempts of one client inside its window, a request of
    another client, a sweep, and a twelfth attempt. *)
Definition loginAttempt : Request := request "/api/auth/login" None None.
Definition otherAttempt : Request :=
  mkRequest "/api/auth/login" "10.0.0.8" None None None None None "" "" None translate.
Definition burst : list LimiterEvent :=
  (repeat (Arrive loginAttempt 2000) 10
   ++ [Arrive otherAttempt 3000; Sweep 300000; Arrive loginAttempt 901000])%list.

(** A decimal reader standing for the text-to-number conversions. *)
Fixpoint digits (s : string) (acc : Z) : option Z :=
  match s with
  | EmptyString => Some acc
  | String c s' =>
      let n := Z.of_nat (Ascii.nat_of_ascii c) in
      if (48 <=? n) && (n <=? 57) then digits s' (10 * acc + (n - 48)) else None
  end.

Definition decimal (s : string) : option Z :=
  match s with
  | EmptyString => None
  | _ => digits s 0
  end.

Definition bcryptHash (password : string) : string := "$2b$12$" +:+ password.

(** A file system with one file outside the served tree. *)
Definition fs (p : string) : option FsNode :=
  if String.eqb p "/etc/passwd" then Some (FsFile 2048)
  else if String.eqb p "/srv/nas" then Some FsDirectory
  else if String.eqb p "/srv/nas/music/a.mp3" then Some (FsFile 4096)
  else None.

Definition mimeGetType (p : string) : option string :=
  if String.eqb (basename p) "a.mp3" then Some "audio/mpeg" else None.

(** An authenticated download request for [req.params[0] = p]. *)
Definition download (p : string) : Request :=
  mkRequest ("/download/" +:+ p) "10.0.0.7" (Some bobSession) (Some bob)
    None None None "" p None translate.

(** A setup submission. *)
Definition setupRequest (name password : string) : Request :=
  mkRequest "/api/setup" "10.0.0.7" None None (Some name) None (Some password)
    "" "" None translate.

(** A deletion request by [root] for the account named by [target]. *)
Definition deletion (target : string) : Request :=
  mkRequest ("/api/admin/users/" +:+ target) "10.0.0.7" (Some rootSession)
    (Some root) None None None target "" None translate.

End Sample.

(** Further sample data. *)

Module Scenario.

(** [bcrypt.compare] for the hashes of [Sample.bcryptHash]. *)
Definition bcryptCompare (password hash : string) : bool :=
  String.eqb (Sample.bcryptHash password) hash.

(** A login submission carrying an empty session. *)
Definition login (name password : string) : Request :=
  mkRequest "/api/auth/login" "10.0.0.7" (Some (mkSession None None None)) None
    (Some name) None (Some password) "" "" None Sample.translate.

(** An account-creation request by [Sample.root]. *)
Definition creation (name password : string) : Request :=
  mkRequest "/api/admin/users" "10.0.0.7" (Some Sample.rootSession)
    (Some Sample.root) (Some name) None (Some password) "" "" None Sample.translate.

(** A store whose user [bob] has the password [hunter2]. *)
Definition bob : User :=
  mkUser 3 "bob" None (Sample.bcryptHash "hunter2") "user" true (Some 1).
Definition world : World :=
  mkWorld [Sample.root; Sample.alice; bob]
    (<["setup_completed" := mkSetting "true" (Some 1)]> Sample.defaultSettings) None [].

End Scenario.

(** * Properties *)

(** ** The path model on concrete inputs *)

Example resolve_parent :
  NAS_ROOT "/srv/nas/CORS" "/home/node" = "/srv/nas".
Proof. reflexivity. Qed.

Example resolve_dots :
  Path.resolve "/home/node" ["/srv/nas"; "a/./b/../c//d/"] = "/srv/nas/a/c/d".
Proof. reflexivity. Qed.

Example resolve_relative :
  Path.resolve "/home/node" ["x"; "../../../y"] = "/y".
Proof. reflexivity. Qed.

Example resolve_second_absolute :
  Path.resolve "/home/node" ["/srv/nas"; "/etc/passwd"] = "/etc/passwd".
Proof. reflexivity. Qed.

Example valid_plain :
  isValidPath Sample.dirname Sample.cwd "/music/a.mp3" = true.
Proof. reflexivity. Qed.

Example valid_root :
  isValidPath Sample.dirname Sample.cwd "/" = true
  /\ validatedPath Sample.dirname Sample.cwd "" = "/srv/nas".
Proof. split; reflexivity. Qed.

Example invalid_escape :
  isValidPath Sample.dirname Sample.cwd "../../etc/passwd" = false.
Proof. reflexivity. Qed.

Example invalid_cors :
  isValidPath Sample.dirname Sample.cwd "CORS/server.js" = false.
Proof. reflexivity. Qed.

Example inside_examples :
  Path.isInside "/srv/nas" "/srv/nas/music/a.mp3" = true
  /\ Path.isInside "/srv/nas" "/srv/nas" = true
  /\ Path.isInside "/srv/nas" "/srv/nas-backup/x" = false
  /\ Path.isInside "/" "/etc" = true.
Proof. repeat split; vm_compute; reflexivity. Qed.

(** ** Strings, segments and resolved paths *)

Section PathFacts.

Import JsString.

Lemma append_nil_l (s : string) : "" +:+ s = s.
Proof. reflexivity. Qed.

Lemma append_cons (c : ascii) (a b : string) :
  String c a +:+ b = String c (a +:+ b).
Proof. reflexivity. Qed.

Ltac string_simpl := rewrite ?append_cons, ?append_nil_l; simpl.

Lemma startsWith_app (p s : string) : startsWith (p +:+ s) p = true.
Proof.
  induction p as [|c p IH]; string_simpl; [reflexivity|].
  rewrite Ascii.eqb_refl. exact IH.
Qed.

Lemma startsWith_refl (s : string) : startsWith s s = true.
Proof.
  induction s as [|c s IH]; simpl; [reflexivity|].
  rewrite Ascii.eqb_refl. exact IH.
Qed.

Lemma append_assoc (a b c : string) : (a +:+ b) +:+ c = a +:+ (b +:+ c).
Proof.
  induction a as [|x a IH]; string_simpl; [reflexivity| f_equal; exact IH].
Qed.

Lemma split_noSlash (seg : string) : noSlash seg = true -> split seg = [seg].
Proof.
  induction seg as [|c seg IH]; simpl; [reflexivity|].
  intros [Hc Hs]%andb_true_iff.
  destruct (Ascii.eqb c "/"); [discriminate|].
  now rewrite (IH Hs).
Qed.

Lemma split_app_slash (seg rest : string) :
  noSlash seg = true -> split (seg +:+ String "/" rest) = seg :: split rest.
Proof.
  induction seg as [|c seg IH]; rewrite ?append_cons, ?append_nil_l; simpl;
    [reflexivity|].
  intros [Hc Hs]%andb_true_iff.
  destruct (Ascii.eqb c "/"); [discriminate|].
  now rewrite (IH Hs).
Qed.

Lemma split_all_noSlash (s : string) : Forall (fun seg => noSlash seg = true) (split s).
Proof.
  induction s as [|c s IH]; simpl; [repeat constructor|].
  destruct (Ascii.eqb c "/") eqn:Hc; [constructor; [reflexivity|exact IH]|].
  destruct (split s) as [|seg rest]; [repeat constructor; simpl; now rewrite Hc|].
  inversion IH; subst. constructor; [simpl; now rewrite Hc|assumption].
Qed.

Lemma split_join (segs : list string) :
  Forall segment segs -> segs <> [] -> split (join segs) = segs.
Proof.
  induction 1 as [|seg rest [Hs _] Hrest IH]; [congruence|]. intros _.
  destruct rest as [|seg' rest'].
  - simpl. now apply split_noSlash.
  - change (join (seg :: seg' :: rest'))
      with (seg +:+ String "/" (join (seg' :: rest'))).
    rewrite split_app_slash by assumption. f_equal. now apply IH.
Qed.

Lemma filter_segments (segs : list string) :
  Forall segment segs -> filter (fun seg => seg <> "") segs = segs.
Proof.
  induction 1 as [|seg rest [_ Hne] _ IH]; [reflexivity|].
  rewrite filter_cons_True by assumption. now rewrite IH.
Qed.

Lemma components_rooted (segs : list string) :
  Forall segment segs -> Path.components ("/" +:+ join segs) = segs.
Proof.
  intros Hsegs. unfold Path.components. string_simpl.
  rewrite filter_cons_False by (intros H; now apply H).
  destruct segs as [|seg rest]; [reflexivity|].
  rewrite split_join by (assumption || discriminate).
  now apply filter_segments.
Qed.

Lemma pushSegment_segments (above : bool) (stack : list string) (seg : string) :
  Forall segment stack -> noSlash seg = true ->
  Forall segment (Path.pushSegment above stack seg).
Proof.
  intros Hstack Hseg. unfold Path.pushSegment.
  destruct (String.eqb seg "") eqn:E1; [assumption|].
  destruct (String.eqb seg ".") eqn:E2; [assumption|].
  destruct (String.eqb seg "..") eqn:E3.
  - destruct stack as [|top rest].
    + destruct above; repeat constructor; discriminate.
    + inversion Hstack; subst.
      destruct (String.eqb top ".."); [|assumption].
      destruct above; [|assumption].
      constructor; [split; [reflexivity|discriminate]|assumption].
  - constructor; [|assumption]. split; [assumption|].
    intros ->. discriminate.
Qed.

Lemma fold_pushSegment_segments (above : bool) (segs stack : list string) :
  Forall (fun seg => noSlash seg = true) segs -> Forall segment stack ->
  Forall segment (fold_left (Path.pushSegment above) segs stack).
Proof.
  revert stack. induction segs as [|seg segs IH]; intros stack Hsegs Hstack;
    simpl; [assumption|].
  inversion Hsegs; subst. apply IH; [assumption|].
  now apply pushSegment_segments.
Qed.

Lemma normalizeSegments_segments (above : bool) (p : string) :
  Forall segment (Path.normalizeSegments above p).
Proof.
  unfold Path.normalizeSegments. apply Forall_rev.
  apply fold_pushSegment_segments; [apply split_all_noSlash|constructor].
Qed.

Lemma resolveSegments_segments (cwd : string) (args : list string) :
  Forall segment (Path.resolveSegments cwd args).
Proof.
  unfold Path.resolveSegments.
  destruct (Path.gather _ _) as [joined absolute].
  apply normalizeSegments_segments.
Qed.

Lemma resolve_rooted (cwd : string) (args : list string) :
  Path.resolvesAbsolute cwd args = true ->
  Path.resolve cwd args = "/" +:+ join (Path.resolveSegments cwd args).
Proof.
  unfold Path.resolvesAbsolute, Path.resolve, Path.resolveSegments, Path.normalizeString.
  destruct (Path.gather _ _) as [joined absolute]. simpl. now intros ->.
Qed.

Lemma components_resolve (cwd : string) (args : list string) :
  Path.resolvesAbsolute cwd args = true ->
  Path.components (Path.resolve cwd args) = Path.resolveSegments cwd args.
Proof.
  intros Habs. rewrite resolve_rooted by assumption.
  apply components_rooted, resolveSegments_segments.
Qed.

Lemma join_app (l k : list string) :
  l <> [] -> k <> [] -> join (l ++ k) = join l +:+ "/" +:+ join k.
Proof.
  induction l as [|a l IH]; [congruence|]. intros _ Hk.
  destruct l as [|b l].
  - simpl. destruct k; [congruence|reflexivity].
  - change (join ((a :: b :: l) ++ k)) with (a +:+ "/" +:+ join ((b :: l) ++ k)).
    rewrite IH by (discriminate || assumption).
    change (join (a :: b :: l)) with (a +:+ "/" +:+ join (b :: l)).
    now rewrite !append_assoc.
Qed.

(** A rooted path starts with every rooted path made of its first segments. *)
Lemma startsWith_rooted_prefix (l m : list string) :
  l `prefix_of` m -> startsWith ("/" +:+ join m) ("/" +:+ join l) = true.
Proof.
  intros [k ->]. destruct l as [|a l].
  - reflexivity.
  - destruct k as [|b k].
    + rewrite app_nil_r. apply startsWith_refl.
    + rewrite join_app by discriminate.
      rewrite <- append_assoc. apply startsWith_app.
Qed.

End PathFacts.

(** ** The path guard *)

Section PathGuardFacts.

Import JsString.

Lemma gather_absolute (rargs : list string) (acc : string) :
  snd (Path.gather rargs acc) = existsb Path.isAbsolute rargs.
Proof.
  revert acc. induction rargs as [|p rest IH]; intros acc; simpl; [reflexivity|].
  destruct (String.eqb_spec p "") as [->|Hp]; [apply IH|].
  destruct (Path.isAbsolute p); [reflexivity|apply IH].
Qed.

Lemma resolvesAbsolute_spec (cwd : string) (args : list string) :
  Path.resolvesAbsolute cwd args = existsb Path.isAbsolute (rev args ++ [cwd]).
Proof. apply gather_absolute. Qed.

Lemma stripped_relative (s : string) :
  Path.isAbsolute (stripLeadingSlashes s) = false.
Proof.
  induction s as [|c s IH]; simpl; [reflexivity|].
  destruct (Ascii.eqb c "/") eqn:Hc; [exact IH|].
  unfold Path.isAbsolute. simpl. now rewrite Hc.
Qed.

Variables dirname cwd : string.
Hypothesis dirname_absolute : Path.isAbsolute dirname = true.

Lemma corsPath_rooted :
  corsPath dirname cwd = "/" +:+ join (Path.resolveSegments cwd [dirname]).
Proof.
  apply resolve_rooted. rewrite resolvesAbsolute_spec. simpl.
  now rewrite dirname_absolute.
Qed.

Lemma NAS_ROOT_rooted :
  NAS_ROOT dirname cwd = "/" +:+ join (Path.resolveSegments cwd [dirname; ".."]).
Proof.
  apply resolve_rooted. rewrite resolvesAbsolute_spec. simpl.
  now rewrite dirname_absolute.
Qed.

Lemma validatedPath_rooted (p : string) :
  validatedPath dirname cwd p
  = "/" +:+ join (Path.resolveSegments cwd
                    [NAS_ROOT dirname cwd; stripLeadingSlashes p]).
Proof.
  apply resolve_rooted. rewrite resolvesAbsolute_spec. simpl.
  rewrite stripped_relative, NAS_ROOT_rooted. reflexivity.
Qed.

End PathGuardFacts.

(** C8. Exclusion takes precedence: whenever the path [isValidPath]
    resolves is the installation directory itself or lies below it,
    [isValidPath] answers [false], whether or not that path is also below
    [NAS_ROOT]. *)
Theorem excluded_subtree_rejected (dirname cwd requestedPath : string) :
  Path.isAbsolute dirname = true ->
  Path.isInside (corsPath dirname cwd) (validatedPath dirname cwd requestedPath) = true ->
  isValidPath dirname cwd requestedPath = false.
Proof.
  intros Habs Hin. unfold isValidPath.
  apply andb_false_iff. right. apply negb_false_iff.
  apply bool_decide_eq_true in Hin.
  rewrite validatedPath_rooted, corsPath_rooted in * by assumption.
  rewrite !components_rooted in Hin by apply resolveSegments_segments.
  now apply startsWith_rooted_prefix.
Qed.

Lemma excluded_subtree_rejected_witness :
  Path.isInside (corsPath Sample.dirname Sample.cwd)
    (validatedPath Sample.dirname Sample.cwd "/CORS/data/nas_server.db") = true
  /\ isValidPath Sample.dirname Sample.cwd "/CORS/data/nas_server.db" = false.
Proof.
  split; [vm_compute; reflexivity|].
  apply (excluded_subtree_rejected Sample.dirname Sample.cwd
           "/CORS/data/nas_server.db"); vm_compute; reflexivity.
Defined.

(** C2. A request that climbs out of [NAS_ROOT] into a sibling directory
    whose name extends the root's name is accepted, and a directory of the
    root whose name extends the installation directory's name is refused:
    the guard compares the resolved text with [startsWith], not the path
    components. *)
Theorem sibling_prefix_breaks_containment :
  NAS_ROOT Sample.dirname Sample.cwd = "/srv/nas"
  /\ validatedPath Sample.dirname Sample.cwd "../nas-backup/secret.txt"
     = "/srv/nas-backup/secret.txt"
  /\ Path.isInside "/srv/nas" "/srv/nas-backup/secret.txt" = false
  /\ isValidPath Sample.dirname Sample.cwd "../nas-backup/secret.txt" = true
  /\ validatedPath Sample.dirname Sample.cwd "CORS-old/notes.txt"
     = "/srv/nas/CORS-old/notes.txt"
  /\ Path.isInside "/srv/nas" "/srv/nas/CORS-old/notes.txt" = true
  /\ Path.isInside "/srv/nas/CORS" "/srv/nas/CORS-old/notes.txt" = false
  /\ isValidPath Sample.dirname Sample.cwd "CORS-old/notes.txt" = false.
Proof. repeat split; vm_compute; reflexivity. Qed.

(** C1. The download handler validates [req.params[0]] with its leading
    slashes removed and then resolves it as it came: for
    [GET /download//etc/passwd] the guard accepts [/srv/nas/etc/passwd] and
    the handler streams [/etc/passwd]. The browse handler resolves the path
    the guard examined. *)
Theorem download_resolves_unvalidated_path :
  isValidPath Sample.dirname Sample.cwd "/etc/passwd" = true
  /\ validatedPath Sample.dirname Sample.cwd "/etc/passwd" = "/srv/nas/etc/passwd"
  /\ browseFullPath Sample.dirname Sample.cwd "/etc/passwd" = "/srv/nas/etc/passwd"
  /\ downloadFullPath Sample.dirname Sample.cwd "/etc/passwd" = "/etc/passwd"
  /\ startsWith "/etc/passwd" (NAS_ROOT Sample.dirname Sample.cwd) = false
  /\ fst (downloadHandler Sample.dirname Sample.cwd Sample.fs Sample.mimeGetType
            (Sample.download "/etc/passwd") Sample.liveWorld)
     = Resolved (RStream
         [("Content-Disposition", "attachment; filename=" +:+ dquote +:+ "passwd" +:+ dquote);
          ("Content-Type", "application/octet-stream");
          ("Content-Length", "2048")]
         "/etc/passwd").
Proof. repeat split; vm_compute; reflexivity. Qed.

(** ** The store queries on a healthy driver *)

Section StoreFacts.

Variable w : World.
Hypothesis healthy : fault w = None.

Lemma query_ok {A} (context : string) (run : M A) :
  Database.query context run w = run w.
Proof. unfold Database.query. now rewrite healthy. Qed.

Lemma getSetting_ok (key : string) :
  Database.getSetting key w = (Resolved (value <$> settings w !! key), w).
Proof. unfold Database.getSetting. now rewrite query_ok. Qed.

Lemma isSetupCompleted_ok :
  Database.isSetupCompleted w = (Resolved (setupCompleted w), w).
Proof.
  unfold Database.isSetupCompleted, mbind, M_bind.
  now rewrite getSetting_ok.
Qed.

Lemma count_positive {A} (P : A -> bool) (l : list A) :
  (Z.of_nat (length (filter (fun a => P a = true) l)) >? 0) = existsb P l.
Proof.
  induction l as [|a l IH]; [reflexivity|]. simpl existsb.
  destruct (P a) eqn:Ha.
  - rewrite filter_cons_True by assumption. simpl length.
    apply Z.gtb_lt. lia.
  - rewrite filter_cons_False by congruence. exact IH.
Qed.

Lemma hasAdminUser_ok :
  Database.hasAdminUser w = (Resolved (hasActiveAdmin w), w).
Proof.
  unfold Database.hasAdminUser. rewrite query_ok.
  unfold hasActiveAdmin. now rewrite <- count_positive.
Qed.

Lemma getUserById_ok (uid : Z) :
  Database.getUserById uid w
  = (Resolved (find (fun u => Z.eqb (id u) uid && is_active u) (users w)), w).
Proof. unfold Database.getUserById. now rewrite query_ok. Qed.

(** [checkSetup] on a healthy store, by the state of the gate. *)
Lemma checkSetup_ok (req : Request) :
  checkSetup req w =
  (Resolved
     (if negb (operational w) then
        if setupAllowList (path req) then Next req
        else if startsWith (path req) "/api/" then Respond (RJson 200 setupRequiredBody)
        else Respond (RRedirect "/setup")
      else if String.eqb (path req) "/setup" || startsWith (path req) "/api/setup" then
        if startsWith (path req) "/api/" then
          Respond (RJson 403
            (JObj [("success", JBool false);
                   ("message", JStr "Setup already completed")]))
        else Respond (RRedirect "/")
      else Next req), w).
Proof.
  unfold checkSetup, tryCatch, mbind, M_bind, operational.
  rewrite isSetupCompleted_ok, hasAdminUser_ok.
  rewrite negb_andb.
  destruct (negb (setupCompleted w) || negb (hasActiveAdmin w)).
  - destruct (setupAllowList (path req)); [reflexivity|].
    destruct (startsWith (path req) "/api/"); reflexivity.
  - destruct (String.eqb (path req) "/setup" || startsWith (path req) "/api/setup");
      [|reflexivity].
    destruct (startsWith (path req) "/api/"); reflexivity.
Qed.

End StoreFacts.

(** C10. While setup is required, a request that reaches [checkSetup] with
    an [/api/] path outside the allow-list is answered with status 200 and
    the body [{success:false, requiresSetup:true, message, redirect:'/setup'}];
    the store and the log are left as they were. *)
Theorem setup_required_api_answers_200 (w : World) (req : Request) :
  fault w = None ->
  operational w = false ->
  startsWith (path req) "/api/" = true ->
  setupAllowList (path req) = false ->
  checkSetup req w
  = (Resolved (Respond (RJson 200
       (JObj [("success", JBool false);
              ("requiresSetup", JBool true);
              ("message", JStr "Initial setup required");
              ("redirect", JStr "/setup")]))), w).
Proof.
  intros Hw Hop Hapi Hlist.
  rewrite checkSetup_ok by assumption.
  now rewrite Hop, Hlist, Hapi.
Qed.

Lemma setup_required_api_answers_200_witness :
  checkSetup (Sample.request "/api/browse" None None) Sample.freshWorld
  = (Resolved (Respond (RJson 200
       (JObj [("success", JBool false);
              ("requiresSetup", JBool true);
              ("message", JStr "Initial setup required");
              ("redirect", JStr "/setup")]))), Sample.freshWorld).
Proof.
  apply (setup_required_api_answers_200 Sample.freshWorld
           (Sample.request "/api/browse" None None)); vm_compute; reflexivity.
Defined.

(** ** The setup gate on the routes *)

(** The routes [server.js] registers with [checkSetup]. *)
Lemma gated_routes (r : Route) :
  In CheckSetup (routeMiddleware r) <->
  r = GetSetup \/ r = GetRoot \/ r = GetApiBrowse \/ r = GetDownload.
Proof.
  split.
  - destruct r; simpl; intros H;
      repeat (destruct H as [H|H]; try discriminate H); tauto.
  - intros [->|[->|[->| ->]]]; simpl; auto.
Qed.

(** C3, as the code has it. While setup is required, a request matched to
    a route that registers [checkSetup] (the setup page, the home page, the
    directory listing and the download route) and whose path is outside the
    allow-list never reaches the route's handler: it is redirected to
    [/setup], or answered with the setup-required body when its path starts
    with [/api/]. A route that registers no middleware runs its handler in
    every state of the gate. *)
Theorem setup_gate_blocks_gated_routes (w : World) (r : Route) (req : Request) :
  (In CheckSetup (routeMiddleware r) ->
   fault w = None ->
   operational w = false ->
   setupAllowList (path req) = false ->
   enterRoute r req w
   = (Resolved (Respond (if startsWith (path req) "/api/"
                         then RJson 200 setupRequiredBody
                         else RRedirect "/setup")), w))
  /\ (routeMiddleware r = [] ->
      enterRoute r req w = (Resolved (Next req), w)).
Proof.
  split.
  - intros Hgate Hw Hop Hlist.
    assert (Hcheck : checkSetup req w
      = (Resolved (Respond (if startsWith (path req) "/api/"
                            then RJson 200 setupRequiredBody
                            else RRedirect "/setup")), w)).
    { rewrite checkSetup_ok by assumption. rewrite Hop, Hlist. simpl.
      now destruct (startsWith (path req) "/api/"). }
    apply gated_routes in Hgate as [->|[->|[->| ->]]];
      unfold enterRoute; simpl; unfold mbind, M_bind; now rewrite Hcheck.
  - intros Hnone. unfold enterRoute. now rewrite Hnone.
Qed.

Lemma setup_gate_blocks_gated_routes_witness :
  enterRoute GetRoot (Sample.request "/" None None) Sample.freshWorld
  = (Resolved (Respond (RRedirect "/setup")), Sample.freshWorld)
  /\ enterRoute GetApiBrowse (Sample.request "/api/browse" None None) Sample.freshWorld
     = (Resolved (Respond (RJson 200 setupRequiredBody)), Sample.freshWorld)
  /\ enterRoute GetLogin (Sample.request "/login" None None) Sample.freshWorld
     = (Resolved (Next (Sample.request "/login" None None)), Sample.freshWorld).
Proof.
  refine (conj _ (conj _ _)).
  - apply (setup_gate_blocks_gated_routes Sample.freshWorld GetRoot
             (Sample.request "/" None None)); vm_compute; auto.
  - apply (setup_gate_blocks_gated_routes Sample.freshWorld GetApiBrowse
             (Sample.request "/api/browse" None None)); vm_compute; auto.
  - apply (setup_gate_blocks_gated_routes Sample.freshWorld GetLogin
             (Sample.request "/login" None None)); reflexivity.
Defined.

(** C3, as stated, fails: on a fresh store, where setup is required, the
    login page and the settings listing are outside the allow-list and
    their handlers run. *)
Lemma ungated_routes_run_during_setup :
  operational Sample.freshWorld = false
  /\ setupAllowList "/login" = false
  /\ enterRoute GetLogin (Sample.request "/login" None None) Sample.freshWorld
     = (Resolved (Next (Sample.request "/login" None None)), Sample.freshWorld)
  /\ setupAllowList "/api/settings" = false
  /\ enterRoute GetApiSettings (Sample.request "/api/settings" None None)
       Sample.freshWorld
     = (Resolved (Next (Sample.request "/api/settings" None None)), Sample.freshWorld).
Proof. repeat split; vm_compute; reflexivity. Qed.

(** ** The setup operation *)

Lemma startsWith_app_l (s a b : string) :
  startsWith s (a +:+ b) = true -> startsWith s a = true.
Proof.
  revert s. induction a as [|c a IH]; intros s; [reflexivity|].
  rewrite append_cons. destruct s as [|d s]; simpl; [discriminate|].
  intros [Hd Hs]%andb_true_iff. rewrite Hd. simpl. now apply IH.
Qed.

Lemma setupHandler_completed (bcryptHash : string -> string) (w : World)
    (req : Request) :
  fault w = None -> operational w = true ->
  setupHandler bcryptHash req w = (Resolved (RJson 400 setupAlreadyCompleted), w).
Proof.
  intros Hw Hop. unfold setupHandler, tryCatch, mbind, M_bind.
  rewrite isSetupCompleted_ok, hasAdminUser_ok by assumption.
  unfold operational in Hop. now rewrite Hop.
Qed.

Lemma setupHandler_creates (bcryptHash : string -> string) (w : World)
    (req : Request) (name password : string) :
  fault w = None -> operational w = false ->
  bodyUsername req = Some name -> name <> "" ->
  bodyPassword req = Some password -> password <> "" ->
  existsb (fun u => String.eqb (username u) name) (users w) = false ->
  let admin := mkUser (Database.lastID (users w)) name (bodyEmail req)
                 (bcryptHash password) "admin" true None in
  setupHandler bcryptHash req w
  = (Resolved (RJson 200
       (JObj [("success", JBool true);
              ("message", JStr (t req "setupComplete"));
              ("user", JObj [("id", JNum (id admin));
                             ("username", JStr name);
                             ("role", JStr "admin")])])),
     afterSetup admin w).
Proof.
  intros Hw Hop Hname Hne Hpw Hpne Hfree admin.
  unfold setupHandler, tryCatch, mbind, M_bind.
  rewrite isSetupCompleted_ok, hasAdminUser_ok by assumption.
  unfold operational in Hop. rewrite Hop, Hname, Hpw. simpl.
  apply String.eqb_neq in Hne, Hpne. rewrite Hne, Hpne. simpl.
  unfold Database.createUser. rewrite query_ok by assumption.
  rewrite Hfree. unfold Database.setSetting, Database.query. simpl.
  rewrite Hw. reflexivity.
Qed.

(** C9, as the code has it. The setup submission is refused as completed
    only when the flag is ["true"] and an active administrator exists. In
    every other state of a healthy store, also when an active administrator
    already exists, a submission with a user name and a password whose name
    is not yet taken succeeds: a new row with role [admin] is appended and
    the completion flag is set, attributed to the new row's identifier. *)
Theorem setup_refused_only_when_both (bcryptHash : string -> string)
    (w : World) (req : Request) (name password : string) :
  fault w = None ->
  bodyUsername req = Some name -> name <> "" ->
  bodyPassword req = Some password -> password <> "" ->
  existsb (fun u => String.eqb (username u) name) (users w) = false ->
  let admin := mkUser (Database.lastID (users w)) name (bodyEmail req)
                 (bcryptHash password) "admin" true None in
  let '(outcome, w') := setupHandler bcryptHash req w in
  if setupCompleted w && hasActiveAdmin w then
    outcome = Resolved (RJson 400 setupAlreadyCompleted) /\ w' = w
  else
    outcome = Resolved (RJson 200
                (JObj [("success", JBool true);
                       ("message", JStr (t req "setupComplete"));
                       ("user", JObj [("id", JNum (id admin));
                                      ("username", JStr name);
                                      ("role", JStr "admin")])]))
    /\ users w' = (users w ++ [admin])%list
    /\ settings w'
       = <["setup_completed" := mkSetting "true" (Some (id admin))]> (settings w).
Proof.
  intros Hw Hname Hne Hpw Hpne Hfree admin.
  destruct (setupCompleted w && hasActiveAdmin w) eqn:Hop.
  - rewrite setupHandler_completed by assumption. now split.
  - rewrite (setupHandler_creates bcryptHash w req name password) by assumption.
    repeat split.
Qed.

Lemma setup_refused_only_when_both_witness :
  hasActiveAdmin Sample.halfWorld = true
  /\ setupCompleted Sample.halfWorld = false
  /\ let '(outcome, w') :=
       setupHandler Sample.bcryptHash (Sample.setupRequest "mallory" "s3cret")
         Sample.halfWorld in
     outcome = Resolved (RJson 200
                 (JObj [("success", JBool true);
                        ("message", JStr "setupComplete");
                        ("user", JObj [("id", JNum 4);
                                       ("username", JStr "mallory");
                                       ("role", JStr "admin")])]))
     /\ users w' = [Sample.root; Sample.alice; Sample.bob;
                    mkUser 4 "mallory" None "$2b$12$s3cret" "admin" true None]
     /\ settings w'
        = <["setup_completed" := mkSetting "true" (Some 4)]> Sample.defaultSettings.
Proof.
  split; [vm_compute; reflexivity|]. split; [vm_compute; reflexivity|].
  exact (setup_refused_only_when_both Sample.bcryptHash Sample.halfWorld
           (Sample.setupRequest "mallory" "s3cret") "mallory" "s3cret"
           eq_refl eq_refl ltac:(discriminate) eq_refl ltac:(discriminate) eq_refl).
Defined.

(** C9, as stated, fails. With an active administrator and the flag unset,
    exactly one condition holds; a submission under the name of an existing
    account carries a user name and a password, yet the insert breaks the
    [UNIQUE] constraint: the answer is 500, no account is created and the
    flag stays unset. *)
Lemma setup_with_taken_name_fails :
  hasActiveAdmin Sample.halfWorld = true
  /\ setupCompleted Sample.halfWorld = false
  /\ fst (setupHandler Sample.bcryptHash (Sample.setupRequest "root" "s3cret")
            Sample.halfWorld)
     = Resolved (RJson 500 (JObj [("success", JBool false);
                                  ("message", JStr "setupError")]))
  /\ users (snd (setupHandler Sample.bcryptHash (Sample.setupRequest "root" "s3cret")
                   Sample.halfWorld))
     = users Sample.halfWorld
  /\ setupCompleted
       (snd (setupHandler Sample.bcryptHash (Sample.setupRequest "root" "s3cret")
               Sample.halfWorld))
     = false.
Proof. repeat split; vm_compute; reflexivity. Qed.

(** C4, as the code has it. On a healthy store, while the flag is ["true"]
    and an active administrator exists, [checkSetup] redirects the setup
    page to [/] and answers 403 to [/api/setup] paths, and the setup
    submission, which does not pass through [checkSetup], is refused by its
    own handler with status 400; none of them changes the store, so the
    answer is the same however often the request is repeated. The state is
    read from the store on every request: as soon as the flag is not
    ["true"] or no active administrator exists, [checkSetup] lets the setup
    page through. *)
Theorem setup_blocked_while_operational (bcryptHash : string -> string)
    (w : World) (req : Request) :
  fault w = None ->
  (operational w = true ->
   (path req = "/setup" ->
    checkSetup req w = (Resolved (Respond (RRedirect "/")), w))
   /\ (startsWith (path req) "/api/setup" = true ->
       checkSetup req w = (Resolved (Respond (RJson 403 setupAlreadyCompleted)), w))
   /\ setupHandler bcryptHash req w
      = (Resolved (RJson 400 setupAlreadyCompleted), w))
  /\ (operational w = false ->
      path req = "/setup" ->
      checkSetup req w = (Resolved (Next req), w)).
Proof.
  intros Hw. split.
  - intros Hop. refine (conj _ (conj _ _)).
    + intros Hp. rewrite checkSetup_ok by assumption. now rewrite Hop, Hp.
    + intros Hp. rewrite checkSetup_ok by assumption. rewrite Hop, Hp.
      rewrite (startsWith_app_l (path req) "/api/" "setup") by exact Hp.
      now rewrite orb_true_r.
    + now apply setupHandler_completed.
  - intros Hop Hp. rewrite checkSetup_ok by assumption. now rewrite Hop, Hp.
Qed.

Lemma setup_blocked_while_operational_witness :
  checkSetup (Sample.request "/setup" None None) Sample.liveWorld
  = (Resolved (Respond (RRedirect "/")), Sample.liveWorld)
  /\ setupHandler Sample.bcryptHash (Sample.setupRequest "mallory" "s3cret")
       Sample.liveWorld
     = (Resolved (RJson 400 setupAlreadyCompleted), Sample.liveWorld)
  /\ checkSetup (Sample.request "/setup" None None) Sample.halfWorld
     = (Resolved (Next (Sample.request "/setup" None None)), Sample.halfWorld).
Proof.
  refine (conj _ (conj _ _)).
  - apply (setup_blocked_while_operational Sample.bcryptHash Sample.liveWorld
             (Sample.request "/setup" None None)); vm_compute; reflexivity.
  - apply (setup_blocked_while_operational Sample.bcryptHash Sample.liveWorld
             (Sample.setupRequest "mallory" "s3cret")); vm_compute; reflexivity.
  - apply (setup_blocked_while_operational Sample.bcryptHash Sample.halfWorld
             (Sample.request "/setup" None None)); vm_compute; reflexivity.
Defined.

(** C4, as stated, fails. On an operational store the setup submission is
    answered 400, not 403; and the block is not permanent: once the flag is
    overwritten the gate lets the setup page through and a submission
    creates another administrator. *)
Lemma setup_block_is_not_permanent :
  operational Sample.liveWorld = true
  /\ fst (setupHandler Sample.bcryptHash (Sample.setupRequest "mallory" "s3cret")
            Sample.liveWorld)
     = Resolved (RJson 400 setupAlreadyCompleted)
  /\ let cleared :=
       snd (Database.setSetting "setup_completed" "false" None Sample.liveWorld) in
     operational cleared = false
     /\ fst (checkSetup (Sample.request "/setup" None None) cleared)
        = Resolved (Next (Sample.request "/setup" None None))
     /\ fst (setupHandler Sample.bcryptHash (Sample.setupRequest "mallory" "s3cret")
               cleared)
        = Resolved (RJson 200
            (JObj [("success", JBool true);
                   ("message", JStr "setupComplete");
                   ("user", JObj [("id", JNum 4);
                                  ("username", JStr "mallory");
                                  ("role", JStr "admin")])])).
Proof. repeat split; vm_compute; reflexivity. Qed.

(** ** The admin check *)

Lemma find_all_false {A} (f : A -> bool) (l : list A) :
  (forall a, In a l -> f a = false) -> find f l = None.
Proof.
  induction l as [|a l IH]; intros H; [reflexivity|]. simpl.
  rewrite (H a) by now left. apply IH. intros b Hb. apply H. now right.
Qed.

(** C6. [requireAdmin] has four outcomes. Without a session user identifier
    it answers 401 and logs nothing. When the store is healthy and the
    identity is missing or inactive, or its role is not [admin], it answers
    403 and the log grows by the denial. When the lookup fails it answers
    500, not 403, and the log grows by the error of the data layer and the
    error of the middleware. Otherwise it attaches the identity and calls
    the next handler, and logs nothing. *)
Theorem requireAdmin_outcomes (w : World) (req : Request) :
  (sessionUserId req = None ->
   requireAdmin req w = (Resolved (Respond (RJson 401 authenticationRequired)), w))
  /\ (forall uid, sessionUserId req = Some uid -> fault w = None ->
      (forall u, In u (users w) -> id u = uid -> is_active u = false) ->
      requireAdmin req w
      = (Resolved (Respond (RJson 403 adminPrivilegesRequired)),
         addLog (LogAuth "ADMIN_ACCESS_DENIED" (sessionName req) (ip req) false) w)
      /\ logs (snd (requireAdmin req w))
         = (logs w
            ++ [LogAuth "ADMIN_ACCESS_DENIED" (sessionName req) (ip req) false])%list)
  /\ (forall uid u, sessionUserId req = Some uid -> fault w = None ->
      Database.getUserById uid w = (Resolved (Some u), w) ->
      role u <> "admin" ->
      requireAdmin req w
      = (Resolved (Respond (RJson 403 adminPrivilegesRequired)),
         addLog (LogAuth "ADMIN_ACCESS_DENIED" (sessionName req) (ip req) false) w)
      /\ logs (snd (requireAdmin req w))
         = (logs w
            ++ [LogAuth "ADMIN_ACCESS_DENIED" (sessionName req) (ip req) false])%list)
  /\ (forall uid err, sessionUserId req = Some uid -> fault w = Some err ->
      requireAdmin req w
      = (Resolved (Respond (RJson 500 internalServerError)),
         addLog (LogError err "Admin middleware error" (sessionName req) (Some (ip req)))
           (addLog (LogError err ("Failed to get user by id: " +:+ pretty uid) None None)
              w))
      /\ logs (snd (requireAdmin req w))
         = (logs w
            ++ [LogError err ("Failed to get user by id: " +:+ pretty uid) None None;
                LogError err "Admin middleware error" (sessionName req)
                  (Some (ip req))])%list)
  /\ (forall uid u, sessionUserId req = Some uid -> fault w = None ->
      Database.getUserById uid w = (Resolved (Some u), w) ->
      role u = "admin" ->
      requireAdmin req w = (Resolved (Next (withUser req u)), w)).
Proof.
  refine (conj _ (conj _ (conj _ (conj _ _)))).
  - intros Hs. unfold requireAdmin. now rewrite Hs.
  - intros uid Hs Hw Hnone.
    assert (Heq : requireAdmin req w
      = (Resolved (Respond (RJson 403 adminPrivilegesRequired)),
         addLog (LogAuth "ADMIN_ACCESS_DENIED" (sessionName req) (ip req) false) w)).
    { unfold requireAdmin, tryCatch, mbind, M_bind.
      rewrite Hs, getUserById_ok by assumption.
      rewrite find_all_false; [reflexivity|].
      intros u Hu. destruct (Z.eqb_spec (id u) uid) as [Heq|]; [|reflexivity].
      now rewrite (Hnone u Hu Heq). }
    split; [exact Heq|]. now rewrite Heq.
  - intros uid u Hs Hw Hget Hrole.
    assert (Heq : requireAdmin req w
      = (Resolved (Respond (RJson 403 adminPrivilegesRequired)),
         addLog (LogAuth "ADMIN_ACCESS_DENIED" (sessionName req) (ip req) false) w)).
    { unfold requireAdmin, tryCatch, mbind, M_bind.
      rewrite Hs, Hget. unfold Database.isAdminRole.
      apply String.eqb_neq in Hrole. now rewrite Hrole. }
    split; [exact Heq|]. now rewrite Heq.
  - intros uid err Hs Hw.
    assert (Heq : requireAdmin req w
      = (Resolved (Respond (RJson 500 internalServerError)),
         addLog (LogError err "Admin middleware error" (sessionName req) (Some (ip req)))
           (addLog (LogError err ("Failed to get user by id: " +:+ pretty uid) None None)
              w))).
    { unfold requireAdmin, tryCatch, mbind, M_bind.
      rewrite Hs. unfold Database.getUserById, Database.query. now rewrite Hw. }
    split; [exact Heq|]. rewrite Heq. simpl. now rewrite <- app_assoc.
  - intros uid u Hs Hw Hget Hrole. unfold requireAdmin, tryCatch, mbind, M_bind.
    rewrite Hs, Hget. unfold Database.isAdminRole. now rewrite Hrole.
Qed.

Lemma requireAdmin_outcomes_witness :
  requireAdmin (Sample.request "/api/admin/users" None None) Sample.staffWorld
  = (Resolved (Respond (RJson 401 authenticationRequired)), Sample.staffWorld)
  /\ (fst (requireAdmin
             (Sample.request "/api/admin/users" (Some Sample.daveSession) None)
             Sample.staffWorld)
      = Resolved (Respond (RJson 403 adminPrivilegesRequired))
      /\ logs (snd (requireAdmin
                      (Sample.request "/api/admin/users" (Some Sample.daveSession) None)
                      Sample.staffWorld))
         = [LogAuth "ADMIN_ACCESS_DENIED" (Some "dave") "10.0.0.7" false])
  /\ (fst (requireAdmin
             (Sample.request "/api/admin/users" (Some Sample.carolSession) None)
             Sample.staffWorld)
      = Resolved (Respond (RJson 403 adminPrivilegesRequired))
      /\ logs (snd (requireAdmin
                      (Sample.request "/api/admin/users" (Some Sample.carolSession) None)
                      Sample.staffWorld))
         = [LogAuth "ADMIN_ACCESS_DENIED" (Some "carol") "10.0.0.7" false])
  /\ (fst (requireAdmin
             (Sample.request "/api/admin/users" (Some Sample.bobSession) None)
             Sample.staffWorld)
      = Resolved (Respond (RJson 403 adminPrivilegesRequired))
      /\ logs (snd (requireAdmin
                      (Sample.request "/api/admin/users" (Some Sample.bobSession) None)
                      Sample.staffWorld))
         = [LogAuth "ADMIN_ACCESS_DENIED" (Some "bob") "10.0.0.7" false])
  /\ (fst (requireAdmin
             (Sample.request "/api/admin/users" (Some Sample.rootSession) None)
             Sample.brokenWorld)
      = Resolved (Respond (RJson 500 internalServerError))
      /\ logs (snd (requireAdmin
                      (Sample.request "/api/admin/users" (Some Sample.rootSession) None)
                      Sample.brokenWorld))
         = [LogError "SQLITE_IOERR: disk I/O error" "Failed to get user by id: 1"
              None None;
            LogError "SQLITE_IOERR: disk I/O error" "Admin middleware error"
              (Some "root") (Some "10.0.0.7")])
  /\ requireAdmin
       (Sample.request "/api/admin/users" (Some Sample.rootSession) None)
       Sample.staffWorld
     = (Resolved (Next (Sample.request "/api/admin/users" (Some Sample.rootSession)
                          (Some Sample.root))), Sample.staffWorld).
Proof.
  refine (conj _ (conj _ (conj _ (conj _ (conj _ _))))).
  - destruct (requireAdmin_outcomes Sample.staffWorld
                (Sample.request "/api/admin/users" None None)) as (H & _).
    now apply H.
  - destruct (requireAdmin_outcomes Sample.staffWorld
                (Sample.request "/api/admin/users" (Some Sample.daveSession) None))
      as (_ & H & _).
    destruct (H 9 eq_refl eq_refl) as [H1 H2].
    { intros u [<-|[<-|[<-|[<-|[]]]]]; simpl; intros; (reflexivity || lia). }
    split; [now rewrite H1|exact H2].
  - destruct (requireAdmin_outcomes Sample.staffWorld
                (Sample.request "/api/admin/users" (Some Sample.carolSession) None))
      as (_ & H & _).
    destruct (H 5 eq_refl eq_refl) as [H1 H2].
    { intros u [<-|[<-|[<-|[<-|[]]]]]; simpl; intros; (reflexivity || lia). }
    split; [now rewrite H1|exact H2].
  - destruct (requireAdmin_outcomes Sample.staffWorld
                (Sample.request "/api/admin/users" (Some Sample.bobSession) None))
      as (_ & _ & H & _).
    destruct (H 3 Sample.bob eq_refl eq_refl eq_refl) as [H1 H2];
      [simpl; discriminate|].
    split; [now rewrite H1|exact H2].
  - destruct (requireAdmin_outcomes Sample.brokenWorld
                (Sample.request "/api/admin/users" (Some Sample.rootSession) None))
      as (_ & _ & _ & H & _).
    destruct (H 1 "SQLITE_IOERR: disk I/O error" eq_refl eq_refl) as [H1 H2].
    split; [now rewrite H1|exact H2].
  - destruct (requireAdmin_outcomes Sample.staffWorld
                (Sample.request "/api/admin/users" (Some Sample.rootSession) None))
      as (_ & _ & _ & _ & H).
    now apply (H 1 Sample.root).
Defined.

(** ** Deleting users *)

Section DeletionFacts.

Variables jsNumber sqlInteger : string -> option Z.

Lemma unique_id (us : list User) (u v : User) :
  NoDup (map id us) -> In u us -> In v us -> id u = id v -> u = v.
Proof.
  induction us as [|a us IH]; simpl; [tauto|].
  intros Hnd Hu Hv Hid. apply NoDup_cons in Hnd as [Ha Hnd].
  destruct Hu as [->|Hu], Hv as [->|Hv]; try reflexivity.
  - exfalso. apply Ha. rewrite Hid. apply list_elem_of_In, in_map, Hv.
  - exfalso. apply Ha. rewrite <- Hid. apply list_elem_of_In, in_map, Hu.
  - now apply IH.
Qed.

Lemma deleteMatches_not_admin (target : string) (u : User) :
  Database.deleteMatches sqlInteger target u = true -> role u <> "admin".
Proof.
  unfold Database.deleteMatches, Database.isAdminRole.
  destruct (sqlInteger target); [|discriminate].
  intros [_ H]%andb_true_iff. apply negb_true_iff in H.
  now apply String.eqb_neq.
Qed.

Lemma updated_rows (target : string) (us : list User) :
  Forall2 keptOrDeactivated us (Database.deactivateMatching sqlInteger target us).
Proof.
  induction us as [|u us IH]; simpl; constructor; [|exact IH].
  destruct (Database.deleteMatches sqlInteger target u) eqn:Hhit.
  - right. split; [reflexivity|]. now apply (deleteMatches_not_admin target).
  - now left.
Qed.

Lemma kept_rows (us : list User) : Forall2 keptOrDeactivated us us.
Proof. induction us; constructor; [now left|assumption]. Qed.

Lemma rows_ids (us us' : list User) :
  Forall2 keptOrDeactivated us us' -> map id us' = map id us.
Proof.
  induction 1 as [|u u' us us' [->|[-> _]] _ IH]; simpl; [reflexivity|..];
    now rewrite IH.
Qed.

Lemma rows_admins (us us' : list User) :
  Forall2 keptOrDeactivated us us' ->
  List.filter (fun u => Database.isAdminRole (role u)) us'
  = List.filter (fun u => Database.isAdminRole (role u)) us.
Proof.
  induction 1 as [|u u' us us' Hrow _ IH]; simpl; [reflexivity|].
  rewrite IH. destruct Hrow as [->|[-> Hrole]]; [reflexivity|].
  simpl. unfold Database.isAdminRole.
  apply String.eqb_neq in Hrole. now rewrite Hrole.
Qed.

Lemma rows_trans (us us' us'' : list User) :
  Forall2 keptOrDeactivated us us' -> Forall2 keptOrDeactivated us' us'' ->
  Forall2 keptOrDeactivated us us''.
Proof.
  intros H. revert us''. induction H as [|u u' us us' Hrow _ IH];
    intros us'' H'; inversion H'; subst; constructor; [|now apply IH].
  match goal with H : keptOrDeactivated u' _ |- _ => rename H into Hrow' end.
  destruct Hrow as [->|[-> Hrole]]; [exact Hrow'|].
  destruct Hrow' as [->|[-> _]]; right; split; auto.
Qed.

Lemma updated_admin_target (target : string) (us : list User) (victim : User) :
  NoDup (map id us) -> In victim us -> role victim = "admin" ->
  sqlInteger target = Some (id victim) ->
  forall u, In u us -> Database.deleteMatches sqlInteger target u = false.
Proof.
  intros Hnd Hin Hrole Hsql u Hu. unfold Database.deleteMatches. rewrite Hsql.
  destruct (Z.eqb_spec (id u) (id victim)) as [Heq|]; [|reflexivity].
  rewrite (unique_id us u victim Hnd Hu Hin Heq).
  unfold Database.isAdminRole. now rewrite Hrole.
Qed.

Lemma updated_none (target : string) (us : list User) :
  (forall u, In u us -> Database.deleteMatches sqlInteger target u = false) ->
  Database.deactivateMatching sqlInteger target us = us
  /\ filter (fun u => Database.deleteMatches sqlInteger target u = true) us = [].
Proof.
  induction us as [|u us IH]; intros H; [now split|].
  destruct IH as [IH1 IH2]; [intros v Hv; apply H; now right|].
  assert (Hu : Database.deleteMatches sqlInteger target u = false)
    by (apply H; now left).
  split.
  - simpl. now rewrite Hu, IH1.
  - rewrite filter_cons_False by congruence. exact IH2.
Qed.

(** The handler touches the users table only through the update. *)
Lemma deleteUserHandler_rows (req : Request) (w : World) :
  Forall2 keptOrDeactivated (users w)
    (users (snd (deleteUserHandler jsNumber sqlInteger req w))).
Proof.
  unfold deleteUserHandler, tryCatch, mbind, M_bind, reqUser.
  destruct (user req) as [me|]; simpl; [|apply kept_rows].
  destruct (looseEq jsNumber (paramsId req) (id me)); simpl; [apply kept_rows|].
  unfold Database.deleteUser, Database.query.
  destruct (fault w); simpl; [apply kept_rows|].
  match goal with |- context [Z.eqb ?n 0] => destruct (Z.eqb n 0) end;
    simpl; apply updated_rows.
Qed.

Lemma requireAdmin_users (req : Request) (w : World) :
  users (snd (requireAdmin req w)) = users w.
Proof.
  unfold requireAdmin, tryCatch, mbind, M_bind, Database.getUserById,
    Database.query, adminDenied.
  destruct (sessionUserId req); [|reflexivity].
  destruct (fault w); [reflexivity|].
  destruct (find _ _) as [u|]; [|reflexivity].
  destruct (negb (Database.isAdminRole (role u))); reflexivity.
Qed.

Lemma deleteUserRoute_rows (req : Request) (w : World) :
  Forall2 keptOrDeactivated (users w)
    (users (snd (deleteUserRoute jsNumber sqlInteger req w))).
Proof.
  unfold deleteUserRoute, mbind, M_bind.
  pose proof (requireAdmin_users req w) as Hmw.
  destruct (requireAdmin req w) as [[step|err] w1]; simpl in Hmw.
  - destruct step as [req'|r]; [|simpl; rewrite Hmw; apply kept_rows].
    rewrite <- Hmw. apply deleteUserHandler_rows.
  - simpl. rewrite Hmw. apply kept_rows.
Qed.

Lemma afterDeletions_rows (reqs : list Request) (w : World) :
  Forall2 keptOrDeactivated (users w)
    (users (afterDeletions jsNumber sqlInteger reqs w)).
Proof.
  revert w. induction reqs as [|req reqs IH]; intros w; [apply kept_rows|].
  simpl. eapply rows_trans; [apply deleteUserRoute_rows|apply IH].
Qed.

End DeletionFacts.

(** C7. Deleting users. (1) A request that names the requester's own
    account is refused with status 400 and changes nothing. (2) On a healthy
    store with unique identifiers, a request that names an account with role
    [admin], the requester's own or another administrator's, is refused with
    status 400 or 404 and leaves the users table as it was. (3) Whatever the
    request, the deletion route keeps every row: identifiers are unchanged,
    and a row is either untouched or a non-admin row with [is_active]
    cleared. (4) After any sequence of deletion requests the rows with role
    [admin] are exactly the ones before, active ones still active. *)
Theorem deletion_protects_admins (jsNumber sqlInteger : string -> option Z) :
  (forall w req me,
     user req = Some me ->
     looseEq jsNumber (paramsId req) (id me) = true ->
     deleteUserHandler jsNumber sqlInteger req w
     = (Resolved (RJson 400 cannotDeleteOwnAccount), w))
  /\ (forall w req me victim,
        user req = Some me ->
        fault w = None ->
        NoDup (map id (users w)) ->
        In victim (users w) ->
        role victim = "admin" ->
        sqlInteger (paramsId req) = Some (id victim) ->
        exists r w',
          deleteUserHandler jsNumber sqlInteger req w = (Resolved r, w')
          /\ (r = RJson 400 cannotDeleteOwnAccount \/ r = RJson 404 userNotFound)
          /\ users w' = users w)
  /\ (forall w req,
        let w' := snd (deleteUserRoute jsNumber sqlInteger req w) in
        map id (users w') = map id (users w)
        /\ Forall2 keptOrDeactivated (users w) (users w'))
  /\ (forall w reqs,
        let w' := afterDeletions jsNumber sqlInteger reqs w in
        List.filter (fun u => Database.isAdminRole (role u)) (users w')
        = List.filter (fun u => Database.isAdminRole (role u)) (users w)).
Proof.
  refine (conj _ (conj _ (conj _ _))).
  - intros w req me Hme Heq.
    unfold deleteUserHandler, tryCatch, mbind, M_bind, reqUser.
    rewrite Hme. simpl. now rewrite Heq.
  - intros w req me victim Hme Hw Hnd Hin Hrole Hsql.
    unfold deleteUserHandler, tryCatch, mbind, M_bind, reqUser.
    rewrite Hme. simpl.
    destruct (looseEq jsNumber (paramsId req) (id me)); simpl.
    + eexists _, w. split; [reflexivity|]. split; [now left|reflexivity].
    + unfold Database.deleteUser. rewrite query_ok by assumption.
      destruct (updated_none sqlInteger (paramsId req) (users w)) as [Hsame Hcount].
      { now apply (updated_admin_target sqlInteger _ _ victim). }
      rewrite Hcount, Hsame. simpl.
      eexists _, _. split; [reflexivity|]. split; [now right|reflexivity].
  - intros w req w'. pose proof (deleteUserRoute_rows jsNumber sqlInteger req w) as H.
    split; [now apply rows_ids|exact H].
  - intros w reqs w'. apply rows_admins, afterDeletions_rows.
Qed.

Lemma deletion_protects_admins_witness :
  deleteUserHandler Sample.decimal Sample.decimal (Sample.deletion "1") Sample.liveWorld
  = (Resolved (RJson 400 cannotDeleteOwnAccount), Sample.liveWorld)
  /\ (exists r w',
        deleteUserHandler Sample.decimal Sample.decimal (Sample.deletion "2")
          Sample.liveWorld = (Resolved r, w')
        /\ (r = RJson 400 cannotDeleteOwnAccount \/ r = RJson 404 userNotFound)
        /\ users w' = users Sample.liveWorld).
Proof.
  destruct (deletion_protects_admins Sample.decimal Sample.decimal) as (H1 & H2 & _).
  split.
  - apply (H1 Sample.liveWorld (Sample.deletion "1") Sample.root); reflexivity.
  - apply (H2 Sample.liveWorld (Sample.deletion "2") Sample.root Sample.alice);
      try reflexivity.
    + simpl. repeat constructor; rewrite ?list_elem_of_In; simpl; lia.
    + simpl. auto.
Defined.

Example deletion_of_user_deactivates :
  fst (deleteUserRoute Sample.decimal Sample.decimal (Sample.deletion "3")
         Sample.liveWorld)
  = Resolved (RJson 200 (JObj [("success", JBool true);
                               ("message", JStr "userDeleted")]))
  /\ users (snd (deleteUserRoute Sample.decimal Sample.decimal (Sample.deletion "3")
                   Sample.liveWorld))
     = [Sample.root; Sample.alice; Database.deactivate Sample.bob].
Proof. split; vm_compute; reflexivity. Qed.

(** ** The rate limiter *)

Lemma gtb_false (n m : Z) : n <= m -> (n >? m) = false.
Proof. intros H. rewrite Z.gtb_ltb. apply Z.ltb_ge. exact H. Qed.

Lemma gtb_true (n m : Z) : n > m -> (n >? m) = true.
Proof. intros H. apply Z.gtb_lt. lia. Qed.

Section LimiterFacts.

Variables windowMs max : Z.

(** A request of an unknown client, or one that arrives after the client's
    window ran out, opens a window: count 1, reset at [now + windowMs]. With
    [max] at least 1 it is let through. *)
Lemma createRateLimiter_opens (req : Request) (now : Z) (clients : gmap string RateWindow) :
  1 <= max ->
  match clients !! ip req with
  | None => True
  | Some client => now > resetTime client
  end ->
  createRateLimiter windowMs max req now clients
  = (<[ip req := mkWindow 1 (now + windowMs)]> clients, [], Next req).
Proof.
  intros Hmax Hopen. unfold createRateLimiter.
  destruct (clients !! ip req) as [client|]; [|reflexivity].
  rewrite (gtb_true now (resetTime client)) by assumption.
  simpl. now rewrite (gtb_false 1 max) by assumption.
Qed.

(** Inside the window the count goes up by one and the request passes
    exactly when the new count does not exceed [max]. *)
Lemma createRateLimiter_counts (req : Request) (now c windowEnd : Z)
    (clients : gmap string RateWindow) :
  clients !! ip req = Some (mkWindow c windowEnd) ->
  now <= windowEnd ->
  exists entries step,
    createRateLimiter windowMs max req now clients
    = (<[ip req := mkWindow (c + 1) windowEnd]> clients, entries, step)
    /\ (if c + 1 >? max then rateLimited step = true else step = Next req).
Proof.
  intros Hc Hnow. unfold createRateLimiter. rewrite Hc. simpl.
  rewrite (gtb_false now windowEnd) by assumption.
  simpl. destruct (c + 1 >? max); eexists _, _; split; reflexivity.
Qed.

Lemma createRateLimiter_other (req : Request) (now : Z) (clientId : string)
    (clients : gmap string RateWindow) :
  ip req <> clientId ->
  (createRateLimiter windowMs max req now clients).1.1 !! clientId = clients !! clientId.
Proof.
  intros Hne. unfold createRateLimiter.
  destruct (clients !! ip req) as [client|]; simpl.
  - destruct (count _ >? max); simpl; now rewrite lookup_insert_ne.
  - now rewrite lookup_insert_ne.
Qed.

Lemma sweep_keeps (now c windowEnd : Z) (clientId : string)
    (clients : gmap string RateWindow) :
  clients !! clientId = Some (mkWindow c windowEnd) ->
  now <= windowEnd ->
  sweep now clients !! clientId = Some (mkWindow c windowEnd).
Proof.
  intros Hc Hnow. unfold sweep. apply map_lookup_filter_Some.
  split; [assumption|]. simpl. lia.
Qed.

(** The limiter run from a state where the client's window holds [c]
    requests and ends at [windowEnd], over events that stay in that window:
    the [k]-th further request of the client raises the count to
    [c + k + 1] and passes exactly when that does not exceed [max]. *)
Lemma window_run (clientId : string) (windowEnd : Z) (events : list LimiterEvent) :
  forall (clients : gmap string RateWindow) (c : Z),
    clients !! clientId = Some (mkWindow c windowEnd) ->
    Forall (withinWindow clientId windowEnd) events ->
    let run := limiterRun windowMs max events clients in
    let decisions := decisionsFor clientId run.2 in
    run.1 !! clientId
    = Some (mkWindow (c + Z.of_nat (length decisions)) windowEnd)
    /\ forall k step, decisions !! k = Some step ->
         if c + Z.of_nat k + 1 >? max then rateLimited step = true
         else allowed step = true.
Proof.
  induction events as [|e events IH]; intros clients c Hc Hin.
  - simpl. split; [now rewrite Z.add_0_r|]. intros k step H. discriminate.
  - apply Forall_cons in Hin as [He Hin]. destruct e as [req now|now].
    + simpl in He. simpl limiterRun.
      destruct (decide (ip req = clientId)) as [Hip|Hip].
      * specialize (He Hip). subst clientId.
        destruct (createRateLimiter_counts req now c windowEnd clients Hc He)
          as (entries & step & Hrun & Hstep).
        rewrite Hrun.
        specialize (IH (<[ip req := mkWindow (c + 1) windowEnd]> clients) (c + 1)
                      (lookup_insert_eq _ _ _) Hin).
        destruct (limiterRun windowMs max events _) as [final steps].
        cbn [fst snd] in *. destruct IH as [IHfinal IHsteps].
        unfold decisionsFor in *.
        rewrite filter_cons_True by reflexivity. cbn [fmap list_fmap length snd].
        split.
        { rewrite IHfinal. do 2 f_equal. lia. }
        intros [|k] step' Hk.
        { simpl in Hk. injection Hk as <-. rewrite Z.add_0_r.
          destruct (c + 1 >? max); [assumption|now rewrite Hstep]. }
        { specialize (IHsteps k step' Hk).
          replace (c + Z.of_nat (S k) + 1) with (c + 1 + Z.of_nat k + 1) by lia.
          exact IHsteps. }
      * pose proof (createRateLimiter_other req now clientId clients Hip) as Hother.
        destruct (createRateLimiter windowMs max req now clients) as [[clients' entries] step].
        cbn [fst] in Hother. rewrite Hc in Hother.
        specialize (IH clients' c Hother Hin).
        destruct (limiterRun windowMs max events clients') as [final steps].
        cbn [fst snd] in *. unfold decisionsFor in *.
        rewrite filter_cons_False by exact Hip. exact IH.
    + simpl in He. simpl limiterRun.
      apply IH; [|assumption]. now apply sweep_keeps.
Qed.

End LimiterFacts.

(** C5. A limiter built with window [windowMs] and limit [max >= 1], for any
    client. A request that finds the client unknown, or arrives after the
    client's reset time, opens a window: count 1, reset at
    [now + windowMs]. Counting that request as the first of the window,
    while the client's requests and the sweeps come no later than the reset
    time, the client's [k]-th request passes when [k <= max] and is answered
    429 when [k > max], whatever other clients do; every request is
    counted. *)
Theorem rate_window_fixed (windowMs max : Z) (clients : gmap string RateWindow)
    (req : Request) (now : Z) (events : list LimiterEvent) :
  1 <= max ->
  match clients !! ip req with
  | None => True
  | Some client => now > resetTime client
  end ->
  Forall (withinWindow (ip req) (now + windowMs)) events ->
  let run := limiterRun windowMs max (Arrive req now :: events) clients in
  let decisions := decisionsFor (ip req) run.2 in
  (createRateLimiter windowMs max req now clients).1.1 !! ip req
  = Some (mkWindow 1 (now + windowMs))
  /\ run.1 !! ip req
     = Some (mkWindow (Z.of_nat (length decisions)) (now + windowMs))
  /\ forall k step, decisions !! k = Some step ->
       if Z.of_nat k <? max then allowed step = true
       else rateLimited step = true.
Proof.
  intros Hmax Hopen Hin. simpl limiterRun.
  rewrite (createRateLimiter_opens windowMs max req now clients Hmax Hopen).
  cbn [fst]. rewrite lookup_insert_eq.
  pose proof (window_run windowMs max (ip req) (now + windowMs) events
                (<[ip req := mkWindow 1 (now + windowMs)]> clients) 1
                (lookup_insert_eq _ _ _) Hin) as Hrun.
  destruct (limiterRun windowMs max events _) as [final steps].
  cbn [fst snd] in *. destruct Hrun as [Hfinal Hsteps].
  unfold decisionsFor in *. rewrite filter_cons_True by reflexivity.
  cbn [fmap list_fmap length snd].
  split; [reflexivity|]. split.
  - rewrite Hfinal. do 2 f_equal. lia.
  - intros [|k] step Hk.
    + simpl in Hk. injection Hk as <-.
      replace (Z.of_nat 0 <? max) with true; [reflexivity|].
      symmetry. apply Z.ltb_lt. simpl. lia.
    + specialize (Hsteps k step Hk).
      replace (1 + Z.of_nat k + 1 >? max) with (negb (Z.of_nat (S k) <? max)) in Hsteps.
      * now destruct (Z.of_nat (S k) <? max).
      * rewrite Z.gtb_ltb, Z.ltb_antisym, negb_involutive.
        destruct (Z.leb_spec max (Z.of_nat (S k))), (Z.ltb_spec max (1 + Z.of_nat k + 1));
          (reflexivity || lia).
Qed.

Lemma rate_window_fixed_witness :
  let run := limiterRun (15 * 60 * 1000) 10
               (Arrive Sample.loginAttempt 1000 :: Sample.burst) ∅ in
  let decisions := decisionsFor "10.0.0.7" run.2 in
  (createRateLimiter (15 * 60 * 1000) 10
     Sample.loginAttempt 1000 ∅).1.1 !! "10.0.0.7"
  = Some (mkWindow 1 901000)
  /\ run.1 !! "10.0.0.7" = Some (mkWindow (Z.of_nat (length decisions)) 901000)
  /\ forall k step, decisions !! k = Some step ->
       if Z.of_nat k <? 10 then allowed step = true
       else rateLimited step = true.
Proof.
  refine (rate_window_fixed (15 * 60 * 1000) 10
            ∅ Sample.loginAttempt 1000 Sample.burst _ _ _).
  - simpl. lia.
  - exact I.
  - unfold Sample.burst. simpl. repeat constructor; simpl; intros; lia.
Defined.

Example login_burst_decisions :
  allowed <$> decisionsFor "10.0.0.7"
    (limiterRun (15 * 60 * 1000) 10
       (Arrive Sample.loginAttempt 1000 :: Sample.burst) ∅).2
  = [true; true; true; true; true; true; true; true; true; true; false; false].
Proof. vm_compute. reflexivity. Qed.

Example login_window_reopens :
  allowed <$> decisionsFor "10.0.0.7"
    (limiterRun (15 * 60 * 1000) 10
       (Arrive Sample.loginAttempt 1000 :: Sample.burst
        ++ [Arrive Sample.loginAttempt 901001; Arrive Sample.loginAttempt 901002])%list
       ∅).2
  = [true; true; true; true; true; true; true; true; true; true; false; false;
     true; true].
Proof. vm_compute. reflexivity. Qed.

(** The request that creates a client's entry is let through before the
    count is compared with the limit. *)
Example first_request_skips_comparison :
  (createRateLimiter 60000 0 Sample.loginAttempt 1000 ∅).2 = Next Sample.loginAttempt.
Proof. reflexivity. Qed.

(** * Further properties of the code *)

(** ** Resolved paths *)

Section ResolvedPaths.

Import JsString.

Lemma length_append (a b : string) :
  String.length (a +:+ b) = (String.length a + String.length b)%nat.
Proof.
  induction a as [|c a IH]; [reflexivity|].
  rewrite append_cons. simpl. now rewrite IH.
Qed.

Lemma startsWith_length (s p : string) :
  startsWith s p = true -> (String.length p <= String.length s)%nat.
Proof.
  revert s. induction p as [|c p IH]; intros s; simpl; [lia|].
  destruct s as [|d s]; [discriminate|].
  intros [_ H]%andb_true_iff. apply IH in H. simpl. lia.
Qed.

Lemma split_nonempty (s : string) : split s <> [].
Proof.
  induction s as [|c s IH]; simpl; [discriminate|].
  destruct (Ascii.eqb c "/"); [discriminate|].
  destruct (split s); [contradiction|discriminate].
Qed.

(** Cutting at slashes distributes over a slash. *)
Lemma split_app_sep (a b : string) :
  split (a +:+ String "/" b) = (split a ++ split b)%list.
Proof.
  induction a as [|c a IH]; [reflexivity|].
  rewrite append_cons. simpl. rewrite IH.
  destruct (Ascii.eqb c "/"); [reflexivity|].
  pose proof (split_nonempty a) as Hne.
  destruct (split a) as [|seg rest]; [contradiction|reflexivity].
Qed.

Lemma pushSegment_clean (stack : list string) (seg : string) :
  Forall cleanSegment stack -> noSlash seg = true ->
  Forall cleanSegment (Path.pushSegment false stack seg).
Proof.
  intros Hstack Hseg. unfold Path.pushSegment.
  destruct (String.eqb_spec seg "") as [|E1]; [assumption|].
  destruct (String.eqb_spec seg ".") as [|E2]; [assumption|].
  destruct (String.eqb_spec seg "..") as [|E3].
  - destruct stack as [|top rest]; [constructor|].
    inversion Hstack; subst.
    destruct (String.eqb top ".."); assumption.
  - constructor; [|assumption]. repeat split; assumption.
Qed.

Lemma fold_pushSegment_clean (segs stack : list string) :
  Forall (fun seg => noSlash seg = true) segs -> Forall cleanSegment stack ->
  Forall cleanSegment (fold_left (Path.pushSegment false) segs stack).
Proof.
  revert stack. induction segs as [|seg segs IH]; intros stack Hsegs Hstack;
    simpl; [assumption|].
  inversion Hsegs; subst. apply IH; [assumption|].
  now apply pushSegment_clean.
Qed.

(** Clean segments are pushed one after the other. *)
Lemma fold_pushSegment_cleans (segs stack : list string) :
  Forall cleanSegment segs ->
  fold_left (Path.pushSegment false) segs stack = (rev segs ++ stack)%list.
Proof.
  revert stack. induction segs as [|seg segs IH]; intros stack Hsegs; [reflexivity|].
  inversion Hsegs as [|? ? [[_ H0] [H1 H2]] Hrest]; subst. simpl.
  rewrite <- app_assoc. simpl. rewrite <- IH by assumption. f_equal.
  unfold Path.pushSegment.
  apply String.eqb_neq in H0, H1, H2. now rewrite H0, H1, H2.
Qed.

(** Without a [..] segment the stack only grows. *)
Lemma fold_pushSegment_grows (segs stack : list string) :
  (forall seg, In seg segs -> seg <> "..") ->
  exists added, fold_left (Path.pushSegment false) segs stack = (added ++ stack)%list.
Proof.
  revert stack. induction segs as [|seg segs IH]; intros stack Hsegs.
  - now exists [].
  - simpl. destruct (IH (Path.pushSegment false stack seg)) as [added Hadded].
    { intros s Hs. apply Hsegs. now right. }
    rewrite Hadded. unfold Path.pushSegment.
    destruct (String.eqb seg ""); [now exists added|].
    destruct (String.eqb seg "."); [now exists added|].
    destruct (String.eqb_spec seg "..") as [E|_].
    + exfalso. apply (Hsegs seg); [now left|assumption].
    + exists (added ++ [seg])%list. now rewrite <- app_assoc.
Qed.

Lemma resolveSegments_clean (cwd : string) (args : list string) :
  Path.resolvesAbsolute cwd args = true ->
  Forall cleanSegment (Path.resolveSegments cwd args).
Proof.
  unfold Path.resolvesAbsolute, Path.resolveSegments.
  destruct (Path.gather _ _) as [joined absolute]. simpl. intros ->. simpl.
  unfold Path.normalizeSegments. apply Forall_rev.
  apply fold_pushSegment_clean; [apply split_all_noSlash|constructor].
Qed.

Lemma clean_segments (segs : list string) :
  Forall cleanSegment segs -> Forall segment segs.
Proof. induction 1 as [|s l [H _] _ IH]; constructor; assumption. Qed.

(** The segments pushed when a rooted clean path is cut again. *)
Lemma fold_rooted (segs : list string) :
  Forall cleanSegment segs ->
  fold_left (Path.pushSegment false) (split ("/" +:+ join segs)) [] = rev segs.
Proof.
  intros Hsegs. rewrite append_cons, append_nil_l. simpl split.
  destruct segs as [|seg rest]; [reflexivity|].
  rewrite split_join by (discriminate || now apply clean_segments).
  change ("" :: seg :: rest) with ([""] ++ seg :: rest)%list.
  rewrite fold_left_app. change (fold_left (Path.pushSegment false) [""] []) with (@nil string).
  rewrite fold_pushSegment_cleans by assumption. now rewrite app_nil_r.
Qed.

Variables dirname cwd : string.
Hypothesis dirname_absolute : Path.isAbsolute dirname = true.

Lemma dirname_not_empty : String.eqb dirname "" = false.
Proof. destruct dirname; [discriminate dirname_absolute|reflexivity]. Qed.

(** The stack [path.resolve] builds from [__dirname]. *)
Lemma corsPath_segments :
  Path.resolveSegments cwd [dirname]
  = rev (fold_left (Path.pushSegment false) (split dirname) []).
Proof.
  unfold Path.resolveSegments. simpl.
  rewrite dirname_not_empty, dirname_absolute. simpl.
  unfold Path.normalizeSegments.
  change (dirname +:+ "/" +:+ "") with (dirname +:+ String "/" "").
  rewrite split_app_sep, fold_left_app. reflexivity.
Qed.

Lemma NAS_ROOT_segments :
  Path.resolveSegments cwd [dirname; ".."]
  = removelast (Path.resolveSegments cwd [dirname]).
Proof.
  rewrite corsPath_segments. unfold Path.resolveSegments. simpl.
  rewrite dirname_not_empty, dirname_absolute. simpl.
  unfold Path.normalizeSegments.
  change (dirname +:+ "/" +:+ ".." +:+ "/" +:+ "")
    with (dirname +:+ String "/" "../").
  rewrite split_app_sep, fold_left_app.
  assert (Hclean : Forall cleanSegment
            (fold_left (Path.pushSegment false) (split dirname) [])).
  { apply fold_pushSegment_clean; [apply split_all_noSlash|constructor]. }
  destruct (fold_left (Path.pushSegment false) (split dirname) []) as [|top rest].
  - reflexivity.
  - inversion Hclean as [|? ? [_ [_ Htop]] _]; subst.
    apply String.eqb_neq in Htop. simpl. unfold Path.pushSegment at 2. simpl.
    rewrite Htop. unfold Path.pushSegment. simpl.
    now rewrite removelast_last.
Qed.

(** Resolving a relative text against [NAS_ROOT] continues from the root's
    segments. *)
Lemma relative_segments (q : string) :
  Path.isAbsolute q = false ->
  Path.resolvesAbsolute cwd [NAS_ROOT dirname cwd; q] = true
  /\ Path.resolveSegments cwd [NAS_ROOT dirname cwd; q]
     = rev (fold_left (Path.pushSegment false) (split q)
              (rev (Path.resolveSegments cwd [dirname; ".."]))).
Proof.
  intros Hq.
  assert (Hroot : NAS_ROOT dirname cwd
                  = "/" +:+ join (Path.resolveSegments cwd [dirname; ".."]))
    by now apply NAS_ROOT_rooted.
  assert (Hclean : Forall cleanSegment (Path.resolveSegments cwd [dirname; ".."])).
  { apply resolveSegments_clean. rewrite resolvesAbsolute_spec. simpl.
    now rewrite dirname_absolute. }
  split.
  { rewrite resolvesAbsolute_spec. simpl. rewrite Hq, Hroot. reflexivity. }
  unfold Path.resolveSegments. simpl. rewrite Hq.
  destruct (String.eqb_spec q "") as [->|Hne].
  - rewrite Hroot at 1. simpl. rewrite Hroot.
    unfold Path.normalizeSegments. f_equal.
    change (("/" +:+ join (Path.resolveSegments cwd [dirname; ".."])) +:+ "/" +:+ "")
      with (("/" +:+ join (Path.resolveSegments cwd [dirname; ".."])) +:+ String "/" "").
    rewrite split_app_sep, fold_left_app, fold_rooted by assumption. reflexivity.
  - rewrite Hroot at 1. simpl. rewrite Hroot.
    unfold Path.normalizeSegments. f_equal.
    change (("/" +:+ join (Path.resolveSegments cwd [dirname; ".."]))
            +:+ "/" +:+ q +:+ "/" +:+ "")
      with (("/" +:+ join (Path.resolveSegments cwd [dirname; ".."]))
            +:+ String "/" (q +:+ String "/" "")).
    rewrite !split_app_sep, !fold_left_app, fold_rooted by assumption. reflexivity.
Qed.

End ResolvedPaths.

Lemma resolve_clean (cwd : string) (args : list string) :
  Path.resolvesAbsolute cwd args = true ->
  Path.isAbsolute (Path.resolve cwd args) = true
  /\ Forall cleanSegment (Path.components (Path.resolve cwd args)).
Proof.
  intros Habs. rewrite resolve_rooted by assumption. split; [reflexivity|].
  rewrite components_rooted by apply resolveSegments_segments.
  now apply resolveSegments_clean.
Qed.

Lemma stripped_unchanged (p : string) :
  Path.isAbsolute p = false -> stripLeadingSlashes p = p.
Proof.
  destruct p as [|c p]; [reflexivity|]. unfold Path.isAbsolute. simpl.
  rewrite andb_true_r. now intros ->.
Qed.

Lemma stripped_segments (p seg : string) :
  In seg (split (stripLeadingSlashes p)) -> In seg (split p).
Proof.
  induction p as [|c p IH]; simpl; [auto|].
  destruct (Ascii.eqb c "/") eqn:Hc; [intros H; right; now apply IH|].
  simpl. rewrite Hc. auto.
Qed.

(** X1. Whatever the client sends, the path [isValidPath] examines and the
    path the download handler opens are absolute and made of plain
    segments: none is empty, [.] or [..], and none contains a slash. *)
Theorem resolved_paths_clean (dirname cwd requestedPath : string) :
  Path.isAbsolute dirname = true ->
  (Path.isAbsolute (validatedPath dirname cwd requestedPath) = true
   /\ Forall cleanSegment (Path.components (validatedPath dirname cwd requestedPath)))
  /\ (Path.isAbsolute (downloadFullPath dirname cwd requestedPath) = true
      /\ Forall cleanSegment
           (Path.components (downloadFullPath dirname cwd requestedPath))).
Proof.
  intros Habs. split; apply resolve_clean; rewrite resolvesAbsolute_spec; simpl;
    rewrite (NAS_ROOT_rooted dirname cwd Habs); simpl; apply orb_true_r.
Qed.

Lemma resolved_paths_clean_witness :
  Forall cleanSegment
    (Path.components (validatedPath Sample.dirname Sample.cwd "a/./../..//b/../c/")).
Proof.
  apply (resolved_paths_clean Sample.dirname Sample.cwd "a/./../..//b/../c/").
  reflexivity.
Defined.

(** X2. The served root is the parent of the installation directory: the
    components of [NAS_ROOT] are those of [path.resolve(__dirname)] without
    the last one, so the installation directory lies inside the root. *)
Theorem installation_directory_below_root (dirname cwd : string) :
  Path.isAbsolute dirname = true ->
  Path.components (NAS_ROOT dirname cwd)
  = removelast (Path.components (corsPath dirname cwd))
  /\ Path.isInside (NAS_ROOT dirname cwd) (corsPath dirname cwd) = true.
Proof.
  intros Habs.
  assert (Hparent : Path.components (NAS_ROOT dirname cwd)
                    = removelast (Path.components (corsPath dirname cwd))).
  { rewrite (NAS_ROOT_rooted dirname cwd Habs), (corsPath_rooted dirname cwd Habs).
    rewrite !components_rooted by apply resolveSegments_segments.
    now rewrite (NAS_ROOT_segments dirname cwd Habs). }
  split; [exact Hparent|].
  apply bool_decide_eq_true. rewrite Hparent.
  destruct (Path.components (corsPath dirname cwd)) as [|seg segs _] using rev_ind.
  - now exists [].
  - rewrite removelast_last. now exists [seg].
Qed.

Lemma installation_directory_below_root_witness :
  Path.components (NAS_ROOT "/srv/../opt//nas/./CORS" "/") = ["opt"; "nas"]
  /\ Path.isInside (NAS_ROOT "/srv/../opt//nas/./CORS" "/")
       (corsPath "/srv/../opt//nas/./CORS" "/") = true.
Proof.
  destruct (installation_directory_below_root "/srv/../opt//nas/./CORS" "/" eq_refl)
    as [H1 H2].
  split; [rewrite H1; reflexivity|exact H2].
Defined.

(** X3. A request for the root ([''], ['/'], any run of slashes) resolves
    to [NAS_ROOT] itself, and it is accepted exactly when the installation
    directory is not the file-system root. *)
Theorem root_request_resolves_to_root (dirname cwd requestedPath : string) :
  Path.isAbsolute dirname = true ->
  stripLeadingSlashes requestedPath = "" ->
  validatedPath dirname cwd requestedPath = NAS_ROOT dirname cwd
  /\ (isValidPath dirname cwd requestedPath = true
      <-> Path.components (corsPath dirname cwd) <> []).
Proof.
  intros Habs Hp.
  assert (Hfull : validatedPath dirname cwd requestedPath = NAS_ROOT dirname cwd).
  { rewrite (validatedPath_rooted dirname cwd Habs), Hp.
    destruct (relative_segments dirname cwd Habs "" eq_refl) as [_ ->].
    simpl. unfold Path.pushSegment. simpl.
    rewrite rev_involutive. symmetry. now apply NAS_ROOT_rooted. }
  split; [exact Hfull|].
  unfold isValidPath. rewrite Hfull, startsWith_refl. simpl.
  rewrite (NAS_ROOT_rooted dirname cwd Habs), (corsPath_rooted dirname cwd Habs).
  rewrite components_rooted by apply resolveSegments_segments.
  rewrite (NAS_ROOT_segments dirname cwd Habs).
  pose proof (resolveSegments_segments cwd [dirname]) as Hsegs.
  destruct (Path.resolveSegments cwd [dirname]) as [|seg segs] using rev_ind.
  - simpl. split; [discriminate|congruence].
  - clear IHsegs. rewrite removelast_last. split; [intros _; now destruct segs|intros _].
    apply negb_true_iff. apply not_true_is_false. intros H%startsWith_length.
    apply Forall_app in Hsegs as [_ Hseg]. inversion Hseg as [|? ? [_ Hne] _]; subst.
    rewrite !length_append in H.
    destruct segs as [|s0 segs].
    + simpl in H. destruct seg; [congruence|simpl in H; lia].
    + rewrite join_app in H by discriminate. rewrite !length_append in H.
      simpl in H. lia.
Qed.

Lemma root_request_resolves_to_root_witness :
  validatedPath Sample.dirname Sample.cwd "///" = "/srv/nas"
  /\ isValidPath Sample.dirname Sample.cwd "///" = true.
Proof.
  destruct (root_request_resolves_to_root Sample.dirname Sample.cwd "///"
              eq_refl eq_refl) as [H1 H2].
  split; [rewrite H1; reflexivity|]. apply H2. vm_compute. discriminate.
Defined.

(** X4. A requested path with no [..] segment never leaves the root: the
    path it resolves to lies inside [NAS_ROOT], and it is accepted unless
    its text starts with the text of the installation directory. *)
Theorem path_without_dotdot_stays_inside (dirname cwd requestedPath : string) :
  Path.isAbsolute dirname = true ->
  (forall seg, In seg (split requestedPath) -> seg <> "..") ->
  Path.isInside (NAS_ROOT dirname cwd) (validatedPath dirname cwd requestedPath) = true
  /\ isValidPath dirname cwd requestedPath
     = negb (startsWith (validatedPath dirname cwd requestedPath) (corsPath dirname cwd)).
Proof.
  intros Habs Hsegs.
  assert (Hin : Path.resolveSegments cwd [dirname; ".."] `prefix_of`
                Path.resolveSegments cwd
                  [NAS_ROOT dirname cwd; stripLeadingSlashes requestedPath]).
  { destruct (relative_segments dirname cwd Habs (stripLeadingSlashes requestedPath)
                (stripped_relative _)) as [_ ->].
    destruct (fold_pushSegment_grows (split (stripLeadingSlashes requestedPath))
                (rev (Path.resolveSegments cwd [dirname; ".."]))) as [added ->].
    { intros seg Hseg. apply Hsegs. now apply stripped_segments. }
    rewrite rev_app_distr, rev_involutive. now exists (rev added). }
  pose proof (validatedPath_rooted dirname cwd Habs requestedPath) as Hfull.
  pose proof (NAS_ROOT_rooted dirname cwd Habs) as Hroot.
  set (full := Path.resolveSegments cwd
                 [NAS_ROOT dirname cwd; stripLeadingSlashes requestedPath]) in *.
  set (root := Path.resolveSegments cwd [dirname; ".."]) in *.
  assert (Hstarts : startsWith (validatedPath dirname cwd requestedPath)
                      (NAS_ROOT dirname cwd) = true).
  { rewrite Hfull, Hroot. now apply startsWith_rooted_prefix. }
  split.
  - apply bool_decide_eq_true. rewrite Hfull, Hroot.
    now rewrite !components_rooted by apply resolveSegments_segments.
  - unfold isValidPath. cbv zeta. now rewrite Hstarts.
Qed.

Lemma path_without_dotdot_stays_inside_witness :
  Path.isInside (NAS_ROOT Sample.dirname Sample.cwd)
    (validatedPath Sample.dirname Sample.cwd "/music/./live//a.mp3") = true
  /\ isValidPath Sample.dirname Sample.cwd "/music/./live//a.mp3" = true.
Proof.
  destruct (path_without_dotdot_stays_inside Sample.dirname Sample.cwd
              "/music/./live//a.mp3" eq_refl) as [H1 H2].
  { simpl. intros seg [<-|[<-|[<-|[<-|[<-|[<-|[]]]]]]]; discriminate. }
  split; [exact H1|rewrite H2; reflexivity].
Defined.

(** ** The download handler *)

(** X5. The download handler streams a path only when the guard accepted
    the request, a user is attached, and the file system has a regular file
    at that path, whose size it announces; when the parameter does not
    start with a slash, the streamed path is the one the guard examined, so
    it starts with [NAS_ROOT] and not with the installation directory. *)
Theorem download_streams_only_accepted_files (dirname cwd : string)
    (fs : string -> option FsNode) (mimeGetType : string -> option string)
    (req : Request) (w w' : World) (headers : list (string * string))
    (fullPath : string) :
  downloadHandler dirname cwd fs mimeGetType req w
  = (Resolved (RStream headers fullPath), w') ->
  isValidPath dirname cwd (params0 req) = true
  /\ fullPath = downloadFullPath dirname cwd (params0 req)
  /\ (exists size, fs fullPath = Some (FsFile size)
                   /\ In ("Content-Length", pretty size) headers)
  /\ (exists me, user req = Some me)
  /\ (Path.isAbsolute (params0 req) = false ->
      fullPath = validatedPath dirname cwd (params0 req)
      /\ startsWith fullPath (NAS_ROOT dirname cwd) = true
      /\ startsWith fullPath (corsPath dirname cwd) = false).
Proof.
  unfold downloadHandler, tryCatch, mbind, M_bind, reqUser.
  destruct (isValidPath dirname cwd (params0 req)) eqn:Hvalid; simpl.
  - destruct (fs (downloadFullPath dirname cwd (params0 req))) as [[size|]|] eqn:Hfs;
      destruct (user req) as [me|]; simpl; intros H; try discriminate H.
    injection H as <- <- _.
    split; [reflexivity|]. split; [reflexivity|].
    split; [exists size; split; [assumption|simpl; auto]|].
    split; [now exists me|].
    intros Hrel.
    assert (Hsame : downloadFullPath dirname cwd (params0 req)
                    = validatedPath dirname cwd (params0 req)).
    { unfold downloadFullPath, validatedPath. now rewrite stripped_unchanged. }
    rewrite Hsame. split; [reflexivity|].
    unfold isValidPath in Hvalid. cbv zeta in Hvalid.
    apply andb_true_iff in Hvalid as [H1 H2]. split; [exact H1|].
    now apply negb_true_iff.
  - destruct (user req) as [me|]; simpl; intros H; discriminate H.
Qed.

Lemma download_streams_only_accepted_files_witness :
  isValidPath Sample.dirname Sample.cwd "music/a.mp3" = true
  /\ "/srv/nas/music/a.mp3" = downloadFullPath Sample.dirname Sample.cwd "music/a.mp3"
  /\ startsWith "/srv/nas/music/a.mp3" (NAS_ROOT Sample.dirname Sample.cwd) = true.
Proof.
  destruct (download_streams_only_accepted_files Sample.dirname Sample.cwd Sample.fs
              Sample.mimeGetType (Sample.download "music/a.mp3") Sample.liveWorld
              (snd (downloadHandler Sample.dirname Sample.cwd Sample.fs
                      Sample.mimeGetType (Sample.download "music/a.mp3")
                      Sample.liveWorld))
              [("Content-Disposition",
                "attachment; filename=" +:+ dquote +:+ "a.mp3" +:+ dquote);
               ("Content-Type", "audio/mpeg");
               ("Content-Length", "4096")]
              "/srv/nas/music/a.mp3" eq_refl)
    as (H1 & H2 & _ & _ & H5).
  destruct (H5 eq_refl) as (_ & H6 & _).
  split; [exact H1|]. split; [exact H2|exact H6].
Defined.

(** A refused path is answered 403 and logged as denied before the file
    system is consulted: the answer and the log are the same whatever the
    file system holds. *)
Lemma download_denied_before_file_system (dirname cwd : string)
    (fs : string -> option FsNode) (mimeGetType : string -> option string)
    (req : Request) (me : User) (w : World) :
  isValidPath dirname cwd (params0 req) = false ->
  user req = Some me ->
  downloadHandler dirname cwd fs mimeGetType req w
  = (Resolved (RSend 403 (t req "fileAccessDenied")),
     addLog (LogFileAccess "DOWNLOAD_DENIED" (params0 req) (username me) (ip req) false)
       w).
Proof.
  intros Hvalid Hme. unfold downloadHandler, tryCatch, mbind, M_bind, reqUser.
  now rewrite Hvalid, Hme.
Qed.

Lemma download_denied_before_file_system_witness :
  fst (downloadHandler Sample.dirname Sample.cwd (fun _ => Some (FsFile 1))
         Sample.mimeGetType (Sample.download "../../etc/passwd") Sample.liveWorld)
  = Resolved (RSend 403 "fileAccessDenied").
Proof.
  now rewrite (download_denied_before_file_system Sample.dirname Sample.cwd
                 (fun _ => Some (FsFile 1)) Sample.mimeGetType
                 (Sample.download "../../etc/passwd") Sample.bob Sample.liveWorld
                 eq_refl eq_refl).
Defined.

(** ** Authentication on the routes *)

(** X6. On an operational, healthy store the routes that register
    [checkSetup] and [requireAuth] (the home page, the listing, the
    download) decide on the session before their handler runs: without a
    session user the answer is 401 for [/api/] paths and a redirect to
    [/login] otherwise, whatever path was asked for; with one, the handler
    receives the request unchanged. So a download without a session is
    answered as unauthenticated even when its path would be refused. *)
Theorem gated_routes_authenticate_first (w : World) (r : Route) (req : Request) :
  routeMiddleware r = [CheckSetup; RequireAuth] ->
  fault w = None ->
  operational w = true ->
  String.eqb (path req) "/setup" || startsWith (path req) "/api/setup" = false ->
  enterRoute r req w
  = (Resolved
       (match sessionUserId req with
        | Some _ => Next req
        | None => if startsWith (path req) "/api/"
                  then Respond (RJson 401 authenticationRequired)
                  else Respond (RRedirect "/login")
        end), w)
  /\ (r = GetDownload -> sessionUserId req = None ->
      forall dirname cwd fs mimeGetType,
        downloadRoute dirname cwd fs mimeGetType req w
        = (Resolved (if startsWith (path req) "/api/"
                     then RJson 401 authenticationRequired
                     else RRedirect "/login"), w)).
Proof.
  intros Hr Hw Hop Hpath.
  assert (Henter : forall r', routeMiddleware r' = [CheckSetup; RequireAuth] ->
    enterRoute r' req w
    = (Resolved
         (match sessionUserId req with
          | Some _ => Next req
          | None => if startsWith (path req) "/api/"
                    then Respond (RJson 401 authenticationRequired)
                    else Respond (RRedirect "/login")
          end), w)).
  { intros r' Hr'. unfold enterRoute. rewrite Hr'. simpl. unfold mbind, M_bind.
    rewrite checkSetup_ok by assumption. rewrite Hop, Hpath. simpl.
    unfold requireAuth.
    destruct (sessionUserId req); [reflexivity|].
    destruct (startsWith (path req) "/api/"); reflexivity. }
  split; [now apply Henter|].
  intros -> Hnone dirname cwd fs mimeGetType.
  unfold downloadRoute, mbind, M_bind. rewrite (Henter GetDownload eq_refl), Hnone.
  destruct (startsWith (path req) "/api/"); reflexivity.
Qed.

Lemma gated_routes_authenticate_first_witness :
  downloadRoute Sample.dirname Sample.cwd Sample.fs Sample.mimeGetType
    (Sample.request "/download/../../etc/passwd" None None) Sample.liveWorld
  = (Resolved (RRedirect "/login"), Sample.liveWorld).
Proof.
  destruct (gated_routes_authenticate_first Sample.liveWorld GetDownload
              (Sample.request "/download/../../etc/passwd" None None)
              eq_refl eq_refl eq_refl eq_refl) as [_ H].
  exact (H eq_refl eq_refl Sample.dirname Sample.cwd Sample.fs Sample.mimeGetType).
Defined.

Lemma admin_routes (r : Route) :
  In RequireAdmin (routeMiddleware r) -> routeMiddleware r = [RequireAdmin].
Proof.
  destruct r; simpl; intros H;
    repeat (destruct H as [H|H]; try discriminate H); tauto.
Qed.

(** X7. The handler of a route that registers [requireAdmin] runs only for
    a session whose user identifier names a row of the users table that is
    active and has role [admin]; that row is the one attached to the
    request, and the check leaves the store and the log as they were. The
    role recorded in the session plays no part. *)
Theorem admin_routes_admit_only_active_admins (w w' : World) (r : Route)
    (req req' : Request) :
  In RequireAdmin (routeMiddleware r) ->
  enterRoute r req w = (Resolved (Next req'), w') ->
  exists u,
    sessionUserId req = Some (id u)
    /\ In u (users w)
    /\ is_active u = true
    /\ role u = "admin"
    /\ req' = withUser req u
    /\ w' = w.
Proof.
  intros Hr%admin_routes. unfold enterRoute. rewrite Hr. simpl.
  unfold mbind, M_bind, requireAdmin, tryCatch, Database.getUserById,
    Database.query, adminDenied, mbind, M_bind.
  destruct (sessionUserId req) as [uid|]; [|discriminate].
  destruct (fault w); [discriminate|].
  destruct (find _ (users w)) as [u|] eqn:Hfind; [|discriminate].
  destruct (Database.isAdminRole (role u)) eqn:Hrole; simpl; [|discriminate].
  intros H. injection H as <- <-.
  apply find_some in Hfind as [Hin [Hid Hact]%andb_true_iff].
  apply Z.eqb_eq in Hid. apply String.eqb_eq in Hrole.
  exists u. now rewrite Hid.
Qed.

Lemma admin_routes_admit_only_active_admins_witness :
  exists u,
    sessionUserId (Sample.request "/api/admin/users" (Some Sample.rootSession) None)
    = Some (id u)
    /\ In u (users Sample.staffWorld)
    /\ is_active u = true
    /\ role u = "admin"
    /\ withUser (Sample.request "/api/admin/users" (Some Sample.rootSession) None)
         Sample.root
       = withUser (Sample.request "/api/admin/users" (Some Sample.rootSession) None) u
    /\ Sample.staffWorld = Sample.staffWorld.
Proof.
  apply (admin_routes_admit_only_active_admins Sample.staffWorld Sample.staffWorld
           GetAdminUsers
           (Sample.request "/api/admin/users" (Some Sample.rootSession) None)).
  - simpl. auto.
  - reflexivity.
Defined.

(** X8. [attachUser] never ends a request and never rejects: it always
    hands the request on, with the users and settings tables untouched.
    The user it attaches, if any, is an active row whose identifier is the
    session's; on a store failure the request goes on without a user. *)
Theorem attachUser_never_blocks (req : Request) (w : World) :
  exists req' w',
    attachUser req w = (Resolved req', w')
    /\ users w' = users w
    /\ settings w' = settings w
    /\ (req' = req
        \/ exists u, req' = withUser req u
                     /\ In u (users w)
                     /\ is_active u = true
                     /\ sessionUserId req = Some (id u))
    /\ (fault w <> None -> req' = req).
Proof.
  unfold attachUser, tryCatch, mbind, M_bind, Database.getUserById, Database.query.
  destruct (sessionUserId req) as [uid|].
  - destruct (fault w) as [err|] eqn:Hfault.
    + eexists _, _. split; [reflexivity|]. simpl. repeat split; auto.
    + destruct (find _ (users w)) as [u|] eqn:Hfind; simpl.
      * eexists _, _. split; [reflexivity|]. repeat split; [|congruence].
        right. exists u.
        apply find_some in Hfind as [Hin [Hid Hact]%andb_true_iff].
        apply Z.eqb_eq in Hid. now rewrite Hid.
      * eexists _, _. split; [reflexivity|]. repeat split; auto.
  - eexists _, _. split; [reflexivity|]. repeat split; auto.
Qed.

(** X9. [checkSetup] fails closed. [checkSetup] is [checkSetupWith] at the
    two queries of the data layer. Whichever of the two queries rejects,
    the first, or the second after the first resolved, the middleware never
    calls the next handler, for any path, allow-listed or not: [/api/]
    paths are answered 500, every other path is redirected to [/setup],
    and the log grows by exactly the middleware's error, after whatever the
    failing query logged. When the driver fails altogether, the log of
    [checkSetup] grows by the error of [getSetting] and the error of the
    middleware. *)
Theorem checkSetup_fails_closed (w : World) (req : Request) :
  checkSetup req w
  = checkSetupWith Database.isSetupCompleted Database.hasAdminUser req w
  /\ (forall (isSetupCompletedQuery hasAdminUserQuery : M bool) err failed,
        (isSetupCompletedQuery w = (Rejected err, failed)
         \/ exists completed w1,
              isSetupCompletedQuery w = (Resolved completed, w1)
              /\ hasAdminUserQuery w1 = (Rejected err, failed)) ->
        let result := checkSetupWith isSetupCompletedQuery hasAdminUserQuery req w in
        result.1 = Resolved (Respond (if startsWith (path req) "/api/"
                                      then RJson 500 internalServerError
                                      else RRedirect "/setup"))
        /\ logs result.2
           = (logs failed
              ++ [LogError err "Setup check middleware error" None None])%list
        /\ users result.2 = users failed
        /\ settings result.2 = settings failed)
  /\ (forall err,
        fault w = Some err ->
        fst (checkSetup req w)
        = Resolved (Respond (if startsWith (path req) "/api/"
                             then RJson 500 internalServerError
                             else RRedirect "/setup"))
        /\ logs (snd (checkSetup req w))
           = (logs w
              ++ [LogError err "Failed to get setting: setup_completed" None None;
                  LogError err "Setup check middleware error" None None])%list).
Proof.
  refine (conj eq_refl (conj _ _)).
  - intros q1 q2 err failed Hfail.
    assert (Hbody : checkSetupWith q1 q2 req w
      = (Resolved (Respond (if startsWith (path req) "/api/"
                            then RJson 500 internalServerError
                            else RRedirect "/setup")),
         addLog (LogError err "Setup check middleware error" None None) failed)).
    { unfold checkSetupWith, tryCatch, mbind, M_bind.
      destruct Hfail as [H1|(completed & w1 & H1 & H2)].
      - rewrite H1. unfold logError, log. simpl.
        destruct (startsWith (path req) "/api/"); reflexivity.
      - rewrite H1, H2. unfold logError, log. simpl.
        destruct (startsWith (path req) "/api/"); reflexivity. }
    cbv zeta. rewrite Hbody. repeat split.
  - intros err Hw.
    assert (Hbody : checkSetup req w
      = (Resolved (Respond (if startsWith (path req) "/api/"
                            then RJson 500 internalServerError
                            else RRedirect "/setup")),
         addLog (LogError err "Setup check middleware error" None None)
           (addLog (LogError err "Failed to get setting: setup_completed" None None)
              w))).
    { unfold checkSetup, tryCatch, mbind, M_bind,
        Database.isSetupCompleted, mbind, M_bind, Database.getSetting, Database.query.
      rewrite Hw. unfold logError, log. simpl.
      destruct (startsWith (path req) "/api/"); reflexivity. }
    rewrite Hbody. split; [reflexivity|]. simpl. now rewrite <- app_assoc.
Qed.

Lemma checkSetup_fails_closed_witness :
  (fst (checkSetup (Sample.request "/setup" None None) Sample.brokenWorld)
   = Resolved (Respond (RRedirect "/setup"))
   /\ logs (snd (checkSetup (Sample.request "/setup" None None) Sample.brokenWorld))
      = [LogError "SQLITE_IOERR: disk I/O error"
           "Failed to get setting: setup_completed" None None;
         LogError "SQLITE_IOERR: disk I/O error"
           "Setup check middleware error" None None])
  /\ (let result :=
        checkSetupWith Database.isSetupCompleted
          (fun w => (Rejected "SQLITE_BUSY: database is locked", w))
          (Sample.request "/api/browse" None None) Sample.freshWorld in
      result.1 = Resolved (Respond (RJson 500 internalServerError))
      /\ logs result.2
         = [LogError "SQLITE_BUSY: database is locked"
              "Setup check middleware error" None None]).
Proof.
  split.
  - destruct (checkSetup_fails_closed Sample.brokenWorld
                (Sample.request "/setup" None None)) as (_ & _ & H).
    exact (H "SQLITE_IOERR: disk I/O error" eq_refl).
  - destruct (checkSetup_fails_closed Sample.freshWorld
                (Sample.request "/api/browse" None None)) as (_ & H & _).
    destruct (H Database.isSetupCompleted
                (fun w => (Rejected "SQLITE_BUSY: database is locked", w))
                "SQLITE_BUSY: database is locked" Sample.freshWorld) as (H1 & H2 & _).
    + right. exists false, Sample.freshWorld. split; reflexivity.
    + split; [exact H1|exact H2].
Defined.

Lemma attachUser_never_blocks_witness :
  exists req' w',
    attachUser (Sample.request "/" (Some Sample.carolSession) None) Sample.staffWorld
    = (Resolved req', w')
    /\ users w' = users Sample.staffWorld.
Proof.
  destruct (attachUser_never_blocks
              (Sample.request "/" (Some Sample.carolSession) None) Sample.staffWorld)
    as (req' & w' & H1 & H2 & _).
  now exists req', w'.
Defined.

(** ** Completing the setup *)

Lemma afterSetup_operational (admin : User) (w : World) :
  role admin = "admin" -> is_active admin = true ->
  operational (afterSetup admin w) = true /\ fault (afterSetup admin w) = fault w.
Proof.
  intros Hrole Hact. split; [|reflexivity].
  unfold operational. apply andb_true_iff. split.
  - apply bool_decide_eq_true. unfold afterSetup. cbn [settings addLog setSettings].
    now rewrite lookup_insert_eq.
  - unfold hasActiveAdmin, afterSetup. cbn [users addLog setSettings setUsers].
    rewrite existsb_app. simpl. unfold Database.isAdminRole.
    rewrite Hrole, Hact. simpl. now rewrite orb_true_r.
Qed.

(** X10. A successful setup submission completes the transition: the store
    it leaves is operational, every later submission is refused with
    "Setup already completed" without changing the store, and the setup
    page is redirected home. *)
Theorem setup_completes_the_transition (bcryptHash : string -> string)
    (w : World) (req : Request) (name password : string) :
  fault w = None ->
  operational w = false ->
  bodyUsername req = Some name -> name <> "" ->
  bodyPassword req = Some password -> password <> "" ->
  existsb (fun u => String.eqb (username u) name) (users w) = false ->
  let w' := snd (setupHandler bcryptHash req w) in
  operational w' = true
  /\ (forall again, setupHandler bcryptHash again w'
                    = (Resolved (RJson 400 setupAlreadyCompleted), w'))
  /\ (forall page, path page = "/setup" ->
                   checkSetup page w' = (Resolved (Respond (RRedirect "/")), w')).
Proof.
  intros Hw Hop Hname Hne Hpw Hpne Hfree.
  rewrite (setupHandler_creates bcryptHash w req name password) by assumption.
  cbv zeta. cbn [snd].
  destruct (afterSetup_operational
              (mkUser (Database.lastID (users w)) name (bodyEmail req)
                 (bcryptHash password) "admin" true None) w eq_refl eq_refl)
    as [Hop' Hfault].
  rewrite Hw in Hfault.
  split; [exact Hop'|]. split.
  - intros again. now apply setupHandler_completed.
  - intros page Hpage. rewrite checkSetup_ok by assumption.
    now rewrite Hop', Hpage.
Qed.

Lemma setup_completes_the_transition_witness :
  let w' := snd (setupHandler Sample.bcryptHash (Sample.setupRequest "admin" "x")
                   Sample.freshWorld) in
  operational w' = true
  /\ (forall again, setupHandler Sample.bcryptHash again w'
                    = (Resolved (RJson 400 setupAlreadyCompleted), w'))
  /\ (forall page, path page = "/setup" ->
                   checkSetup page w' = (Resolved (Respond (RRedirect "/")), w')).
Proof.
  exact (setup_completes_the_transition Sample.bcryptHash Sample.freshWorld
           (Sample.setupRequest "admin" "x") "admin" "x"
           eq_refl eq_refl eq_refl ltac:(discriminate) eq_refl ltac:(discriminate)
           eq_refl).
Defined.

(** X11. A setup submission that cannot be carried out creates nothing.
    Without a user name or a password it is answered 400 and the store is
    untouched. With a user name that is already taken the insert fails, the
    answer is 500, and neither a row nor the completion flag is written. *)
Theorem setup_failure_writes_nothing (bcryptHash : string -> string)
    (w : World) (req : Request) :
  fault w = None ->
  operational w = false ->
  (truthy (bodyUsername req) && truthy (bodyPassword req) = false ->
   setupHandler bcryptHash req w
   = (Resolved (RJson 400
        (JObj [("success", JBool false);
               ("message", JStr "Username and password are required")])), w))
  /\ (truthy (bodyUsername req) && truthy (bodyPassword req) = true ->
      existsb (fun u => String.eqb (username u) (default "" (bodyUsername req)))
        (users w) = true ->
      exists w',
        setupHandler bcryptHash req w
        = (Resolved (RJson 500
             (JObj [("success", JBool false);
                    ("message", JStr (t req "setupError"))])), w')
        /\ users w' = users w /\ settings w' = settings w).
Proof.
  intros Hw Hop. split.
  - intros Hbody. unfold setupHandler, tryCatch, mbind, M_bind.
    rewrite isSetupCompleted_ok, hasAdminUser_ok by assumption.
    unfold operational in Hop. rewrite Hop.
    apply andb_false_iff in Hbody as [-> | ->]; simpl;
      [reflexivity|now rewrite orb_true_r].
  - intros Hbody Htaken. unfold setupHandler, tryCatch, mbind, M_bind.
    rewrite isSetupCompleted_ok, hasAdminUser_ok by assumption.
    unfold operational in Hop. rewrite Hop.
    apply andb_true_iff in Hbody as [-> ->]. simpl.
    unfold Database.createUser. rewrite query_ok by assumption.
    rewrite Htaken. eexists. split; [reflexivity|]. split; reflexivity.
Qed.

Lemma setup_failure_writes_nothing_witness :
  (exists w',
     setupHandler Sample.bcryptHash (Sample.setupRequest "root" "x") Sample.halfWorld
     = (Resolved (RJson 500
          (JObj [("success", JBool false); ("message", JStr "setupError")])), w')
     /\ users w' = users Sample.halfWorld
     /\ settings w' = settings Sample.halfWorld)
  /\ setupHandler Sample.bcryptHash (Sample.setupRequest "" "x") Sample.halfWorld
     = (Resolved (RJson 400
          (JObj [("success", JBool false);
                 ("message", JStr "Username and password are required")])),
        Sample.halfWorld).
Proof.
  split.
  - apply (setup_failure_writes_nothing Sample.bcryptHash Sample.halfWorld
             (Sample.setupRequest "root" "x")); reflexivity.
  - apply (setup_failure_writes_nothing Sample.bcryptHash Sample.halfWorld
             (Sample.setupRequest "" "x")); reflexivity.
Defined.

(** ** The users and settings tables *)

Lemma lastID_above (us : list User) (u : User) :
  In u us -> id u < Database.lastID us.
Proof.
  unfold Database.lastID. induction us as [|a us IH]; simpl; [tauto|].
  intros [->|Hu]; [lia|]. specialize (IH Hu). lia.
Qed.

Lemma lastID_positive (us : list User) : 1 <= Database.lastID us.
Proof.
  unfold Database.lastID. induction us as [|a us IH]; simpl; lia.
Qed.

Lemma NoDup_snoc {A} (l : list A) (a : A) :
  NoDup l -> ~ In a l -> NoDup (l ++ [a]).
Proof.
  induction l as [|b l IH]; intros Hnd Ha; simpl.
  - apply NoDup_singleton.
  - apply NoDup_cons in Hnd as [Hb Hnd]. apply NoDup_cons. split.
    + rewrite list_elem_of_In in *. intros [Hin|[->|[]]]%in_app_or; [tauto|].
      apply Ha. now left.
    + apply IH; [assumption|]. intros Hin. apply Ha. now right.
Qed.

Lemma name_free (name : string) (us : list User) :
  existsb (fun u => String.eqb (username u) name) us = false ->
  ~ In name (map username us).
Proof.
  induction us as [|u us IH]; simpl; [tauto|].
  intros [Hu Hus]%orb_false_iff [Heq|Hin]; [|now apply IH].
  apply String.eqb_neq in Hu. congruence.
Qed.

Lemma lastID_bounded (us : list User) (bound : Z) :
  0 < bound -> Forall (fun u => id u < bound) us -> Database.lastID us <= bound.
Proof.
  intros Hb. unfold Database.lastID.
  induction 1 as [|u us Hu _ IH]; simpl; lia.
Qed.

(** X12. [createUser] keeps the constraints of the users table. On a table
    with unique identifiers and user names, all identifiers below 2^53, it
    either appends one active row, with a fresh identifier (at most 2^53)
    and the given name, role and creator, or rejects and leaves the table
    as it was; existing rows and the settings are never touched. *)
Theorem createUser_keeps_constraints (bcryptHash : string -> string)
    (name : string) (mail : option string) (password userRole : string)
    (createdBy : option Z) (w : World) :
  wellFormed (users w) ->
  Forall (fun u => id u < 2 ^ 53) (users w) ->
  let result := Database.createUser bcryptHash name mail password userRole createdBy w in
  wellFormed (users result.2)
  /\ settings result.2 = settings w
  /\ match result.1 with
     | Resolved row =>
         users result.2 = (users w ++ [row])%list
         /\ ~ In (id row) (map id (users w))
         /\ 1 <= id row <= 2 ^ 53
         /\ username row = name /\ role row = userRole
         /\ is_active row = true /\ created_by row = createdBy
     | Rejected _ => users result.2 = users w
     end.
Proof.
  intros (Hids & Hnames & Hpos) Hbound. unfold Database.createUser, Database.query.
  destruct (fault w); simpl; [repeat split; assumption|].
  destruct (existsb _ (users w)) eqn:Hfree; simpl; [repeat split; assumption|].
  assert (Hfresh : ~ In (Database.lastID (users w)) (map id (users w))).
  { intros (u & Hid & Hu)%in_map_iff. apply lastID_above in Hu. lia. }
  pose proof (lastID_positive (users w)) as Hlow.
  pose proof (lastID_bounded (users w) (2 ^ 53) ltac:(lia) Hbound) as Hhigh.
  repeat split; try assumption.
  - rewrite map_app. now apply NoDup_snoc.
  - rewrite map_app. apply NoDup_snoc; [assumption|]. now apply name_free.
  - apply Forall_app. split; [assumption|]. constructor; [|constructor].
    simpl. apply lastID_positive.
Qed.

Lemma createUser_keeps_constraints_witness :
  let result := Database.createUser Sample.bcryptHash "dora" None "pw" "user" (Some 1)
                  Sample.liveWorld in
  wellFormed (users result.2)
  /\ result.1 = Resolved (mkUser 4 "dora" None "$2b$12$pw" "user" true (Some 1)).
Proof.
  destruct (createUser_keeps_constraints Sample.bcryptHash "dora" None "pw" "user"
              (Some 1) Sample.liveWorld) as (H & _).
  - repeat split; simpl.
    + repeat constructor; rewrite ?list_elem_of_In; simpl; lia.
    + repeat constructor; rewrite ?list_elem_of_In; simpl;
        intros H; repeat (destruct H as [H|H]; try discriminate H); exact H.
    + repeat constructor; simpl; lia.
  - simpl. repeat constructor; simpl; lia.
  - split; [exact H|reflexivity].
Defined.

(** X13. A setting that was written is read back: after [setSetting] on a
    healthy store [getSetting] of that key gives the new value, every other
    key reads as before, and [isSetupCompleted] holds exactly when the
    value written under [setup_completed] is the text [true]. *)
Theorem setting_written_is_read_back (key val : string) (updatedBy : option Z)
    (w : World) :
  fault w = None ->
  let w' := snd (Database.setSetting key val updatedBy w) in
  fst (Database.getSetting key w') = Resolved (Some val)
  /\ (forall other, other <> key ->
        fst (Database.getSetting other w') = fst (Database.getSetting other w))
  /\ users w' = users w
  /\ (key = "setup_completed" ->
      fst (Database.isSetupCompleted w') = Resolved (bool_decide (val = "true"))).
Proof.
  intros Hw. unfold Database.setSetting. rewrite query_ok by assumption.
  cbn [snd]. set (w' := addLog _ _).
  assert (Hw' : fault w' = None) by exact Hw.
  repeat split.
  - rewrite getSetting_ok by assumption. subst w'. simpl.
    now rewrite lookup_insert_eq.
  - intros other Hne. rewrite !getSetting_ok by assumption. subst w'. simpl.
    now rewrite lookup_insert_ne.
  - intros ->. rewrite isSetupCompleted_ok by assumption.
    unfold setupCompleted. subst w'. simpl. rewrite lookup_insert_eq. simpl.
    f_equal. apply bool_decide_ext. split; congruence.
Qed.

Lemma setting_written_is_read_back_witness :
  fst (Database.getSetting "default_language"
         (snd (Database.setSetting "default_language" "es" (Some 1) Sample.liveWorld)))
  = Resolved (Some "es").
Proof.
  apply (setting_written_is_read_back "default_language" "es" (Some 1)
           Sample.liveWorld eq_refl).
Defined.

Lemma deleteMatches_deactivate (sqlInteger : string -> option Z) (target : string)
    (u : User) :
  Database.deleteMatches sqlInteger target (Database.deactivate u)
  = Database.deleteMatches sqlInteger target u.
Proof. reflexivity. Qed.

(** X14. Deleting is idempotent, and repeating it is not refused: a second
    [deleteUser] with the same parameter leaves the table as the first one
    did and reports the same number of changed rows, so the handler answers
    a repeated deletion of a deactivated account with success again, not
    with 404. *)
Theorem deleteUser_idempotent (sqlInteger : string -> option Z) (target : string)
    (w : World) :
  fault w = None ->
  let first := Database.deleteUser sqlInteger target w in
  let second := Database.deleteUser sqlInteger target first.2 in
  users second.2 = users first.2 /\ second.1 = first.1.
Proof.
  intros Hw. unfold Database.deleteUser, Database.query. rewrite Hw. simpl.
  rewrite Hw. simpl. unfold Database.deactivateMatching. split.
  - rewrite map_map. apply map_ext. intros u.
    destruct (Database.deleteMatches sqlInteger target u) eqn:Hu.
    + rewrite deleteMatches_deactivate, Hu. reflexivity.
    + rewrite Hu. reflexivity.
  - f_equal. f_equal. induction (users w) as [|u us IH]; [reflexivity|]. simpl.
    destruct (Database.deleteMatches sqlInteger target u) eqn:Hu.
    + rewrite !filter_cons_True by (rewrite ?deleteMatches_deactivate; exact Hu).
      simpl. now rewrite IH.
    + rewrite !filter_cons_False by congruence. exact IH.
Qed.

Lemma deleteUser_idempotent_witness :
  fst (deleteUserHandler Sample.decimal Sample.decimal (Sample.deletion "3")
         (snd (Database.deleteUser Sample.decimal "3" Sample.liveWorld)))
  = Resolved (RJson 200 (JObj [("success", JBool true);
                               ("message", JStr "userDeleted")]))
  /\ users (snd (Database.deleteUser Sample.decimal "3"
                   (snd (Database.deleteUser Sample.decimal "3" Sample.liveWorld))))
     = users (snd (Database.deleteUser Sample.decimal "3" Sample.liveWorld)).
Proof.
  split; [vm_compute; reflexivity|].
  apply (deleteUser_idempotent Sample.decimal "3" Sample.liveWorld eq_refl).
Defined.

(** ** Logging in *)

Section LoginFacts.

Variable bcryptCompare : string -> string -> bool.

Lemma getUserByUsername_ok (w : World) (name : string) :
  fault w = None ->
  Database.getUserByUsername name w
  = (Resolved (find (fun u => String.eqb (username u) name && is_active u) (users w)),
     w).
Proof. intros Hw. unfold Database.getUserByUsername. now rewrite query_ok. Qed.

(** The login handler on a healthy store, for a submission that carries a
    user name, a password and a session. *)
Lemma loginHandler_ok (w : World) (req : Request) (name password : string)
    (s : Session) :
  fault w = None ->
  bodyUsername req = Some name -> name <> "" ->
  bodyPassword req = Some password -> password <> "" ->
  session req = Some s ->
  loginHandler bcryptCompare req w
  = match find (fun u => String.eqb (username u) name && is_active u) (users w) with
    | Some u =>
        if bcryptCompare password (password_hash u) then
          (Resolved
             (RJson 200
                (JObj [("success", JBool true);
                       ("message", JStr (t req "loginSuccess"));
                       ("user", JObj [("id", JNum (id u));
                                      ("username", JStr (username u));
                                      ("role", JStr (role u))])]),
              withSession req
                (mkSession (Some (id u)) (Some (username u)) (Some (role u)))),
           addLog (LogAuth "LOGIN_SUCCESS" (Some name) (ip req) true) w)
        else
          (Resolved (RJson 401 (invalidCredentials req), req),
           addLog (LogAuth "LOGIN_FAILED" (Some name) (ip req) false) w)
    | None =>
        (Resolved (RJson 401 (invalidCredentials req), req),
         addLog (LogAuth "LOGIN_FAILED" (Some name) (ip req) false) w)
    end.
Proof.
  intros Hw Hname Hne Hpw Hpne Hs.
  unfold loginHandler, tryCatch, mbind, M_bind, Database.validatePassword,
    mbind, M_bind.
  rewrite Hname, Hpw. simpl.
  apply String.eqb_neq in Hne, Hpne. rewrite Hne, Hpne. simpl.
  rewrite getUserByUsername_ok by assumption.
  destruct (find _ (users w)) as [u|]; simpl; [|reflexivity].
  destruct (bcryptCompare password (password_hash u)); simpl; [|reflexivity].
  rewrite Hs. unfold Database.updateLastLogin, Database.query. simpl.
  now rewrite Hw.
Qed.

(** X15. The login handler sets the session only for the password of an
    active account, and answers 200 only when the update of the last login
    went through. [loginHandler] is [loginHandlerWith] at the update of the
    data layer. Whatever that update does, whenever the handler answers,
    either the session is untouched and the answer is not 200, or the
    submitted name is that of an active row whose stored hash matches the
    submitted password and the session carries that row's identifier, name
    and role; in that case the answer is 200 if the update resolved and 500
    if it rejected, the session staying set. *)
Theorem login_needs_active_account (req req' : Request) (r : Response)
    (w w' : World) (updateLastLogin : Z -> M unit) :
  loginHandler bcryptCompare req
  = loginHandlerWith Database.updateLastLogin bcryptCompare req
  /\ (loginHandlerWith updateLastLogin bcryptCompare req w = (Resolved (r, req'), w') ->
      (statusOf r <> 200 /\ req' = req)
      \/ exists u,
           In u (users w)
           /\ is_active u = true
           /\ bodyUsername req = Some (username u)
           /\ bcryptCompare (default "" (bodyPassword req)) (password_hash u) = true
           /\ req' = withSession req
                       (mkSession (Some (id u)) (Some (username u)) (Some (role u)))
           /\ match updateLastLogin (id u) w with
              | (Resolved _, _) => statusOf r = 200
              | (Rejected _, _) => statusOf r = 500
              end).
Proof.
  split; [reflexivity|].
  unfold loginHandlerWith, tryCatch, mbind, M_bind, Database.validatePassword,
    mbind, M_bind, Database.getUserByUsername,
    Database.query, loginError, mbind, M_bind.
  destruct (bodyUsername req) as [name|] eqn:Hname; simpl;
    [|intros [= <- <- <-]; left; split; [discriminate|reflexivity]].
  destruct (String.eqb name ""); simpl;
    [intros [= <- <- <-]; left; split; [discriminate|reflexivity]|].
  destruct (truthy (bodyPassword req)); simpl;
    [|intros [= <- <- <-]; left; split; [discriminate|reflexivity]].
  destruct (fault w) eqn:Hw; simpl;
    [intros [= <- <- <-]; left; split; [discriminate|reflexivity]|].
  destruct (find _ (users w)) as [u|] eqn:Hfind; simpl;
    [|intros [= <- <- <-]; left; split; [discriminate|reflexivity]].
  destruct (bcryptCompare _ (password_hash u)) eqn:Hcmp; simpl;
    [|intros [= <- <- <-]; left; split; [discriminate|reflexivity]].
  destruct (session req); simpl;
    [|intros [= <- <- <-]; left; split; [discriminate|reflexivity]].
  apply find_some in Hfind as [Hin [Hu Hact]%andb_true_iff].
  apply String.eqb_eq in Hu. subst name.
  destruct (updateLastLogin (id u) w) as [[[]|error] w2] eqn:Hupdate; simpl;
    intros [= <- <- <-]; right; exists u; rewrite Hupdate; repeat split; assumption.
Qed.

Lemma unique_name (us : list User) (u v : User) :
  NoDup (map username us) -> In u us -> In v us -> username u = username v -> u = v.
Proof.
  induction us as [|a us IH]; simpl; [tauto|].
  intros Hnd Hu Hv Hname. apply NoDup_cons in Hnd as [Ha Hnd].
  destruct Hu as [->|Hu], Hv as [->|Hv]; try reflexivity.
  - exfalso. apply Ha. rewrite Hname. apply list_elem_of_In, in_map, Hv.
  - exfalso. apply Ha. rewrite <- Hname. apply list_elem_of_In, in_map, Hu.
  - now apply IH.
Qed.

Lemma find_snoc_fresh {A} (f : A -> bool) (l : list A) (a : A) :
  (forall b, In b l -> f b = false) -> f a = true -> find f (l ++ [a]) = Some a.
Proof.
  induction l as [|b l IH]; intros Hl Ha; simpl.
  - now rewrite Ha.
  - rewrite (Hl b) by now left. apply IH; [|assumption].
    intros c Hc. apply Hl. now right.
Qed.

End LoginFacts.

Lemma login_needs_active_account_witness :
  (exists u,
     In u (users Scenario.world) /\ is_active u = true /\ username u = "bob"
     /\ Scenario.bcryptCompare "hunter2" (password_hash u) = true)
  /\ fst (loginHandlerWith (fun _ => throw "SQLITE_BUSY: database is locked")
            Scenario.bcryptCompare (Scenario.login "bob" "hunter2") Scenario.world)
     = Resolved (RJson 500 (JObj [("success", JBool false);
                                  ("message", JStr "internalError")]),
                 withSession (Scenario.login "bob" "hunter2")
                   (mkSession (Some 3) (Some "bob") (Some "user"))).
Proof.
  split; [|reflexivity].
  destruct (login_needs_active_account Scenario.bcryptCompare
              (Scenario.login "bob" "hunter2")
              (withSession (Scenario.login "bob" "hunter2")
                 (mkSession (Some 3) (Some "bob") (Some "user")))
              (RJson 500 (JObj [("success", JBool false);
                                ("message", JStr "internalError")]))
              Scenario.world
              (snd (loginHandlerWith (fun _ => throw "SQLITE_BUSY: database is locked")
                      Scenario.bcryptCompare (Scenario.login "bob" "hunter2")
                      Scenario.world))
              (fun _ => throw "SQLITE_BUSY: database is locked"))
    as (_ & H).
  destruct (H eq_refl) as [[_ Hsame]|(u & Hin & Hact & Hname & Hcmp & _)].
  - discriminate Hsame.
  - exists u. injection Hname as Hname. repeat split; auto.
Defined.

(** X16. An account created through the admin route can log in. On a
    healthy store, when an administrator submits a free user name and a
    password, one row is appended with the role given (or [user] when none
    is given) and the administrator as creator; if [bcrypt.compare] accepts
    a password against its own hash, a login with that name and password is
    answered 200, and the session it leaves passes [requireAuth]. *)
Theorem created_account_can_log_in (bcryptHash : string -> string)
    (bcryptCompare : string -> string -> bool) (bodyRole : option string)
    (creation login : Request) (me : User) (name password : string)
    (s : Session) (w : World) :
  fault w = None ->
  user creation = Some me ->
  bodyUsername creation = Some name -> name <> "" ->
  bodyPassword creation = Some password -> password <> "" ->
  existsb (fun u => String.eqb (username u) name) (users w) = false ->
  bcryptCompare password (bcryptHash password) = true ->
  bodyUsername login = Some name ->
  bodyPassword login = Some password ->
  session login = Some s ->
  let row := mkUser (Database.lastID (users w)) name (bodyEmail creation)
               (bcryptHash password)
               (if truthy bodyRole then default "" bodyRole else "user") true
               (Some (id me)) in
  let w1 := snd (createUserHandler bcryptHash bodyRole creation w) in
  let loggedIn := withSession login
                    (mkSession (Some (id row)) (Some name) (Some (role row))) in
  users w1 = (users w ++ [row])%list
  /\ exists r w2,
       loginHandler bcryptCompare login w1 = (Resolved (r, loggedIn), w2)
       /\ statusOf r = 200
       /\ requireAuth loggedIn w2 = (Resolved (Next loggedIn), w2).
Proof.
  intros Hw Hme Hname Hne Hpw Hpne Hfree Hbcrypt Hlname Hlpw Hs row w1 loggedIn.
  assert (Hw1 : w1 = addLog (LogAdmin "USER_CREATED" (username me) name (ip creation))
                       (addLog (LogSystem ("User created: " +:+ name))
                          (setUsers (users w ++ [row]) w))).
  { subst w1. unfold createUserHandler, tryCatch, mbind, M_bind, reqUser.
    rewrite Hname, Hpw, Hme. simpl.
    pose proof Hne as Hne'. pose proof Hpne as Hpne'.
    apply String.eqb_neq in Hne', Hpne'. rewrite Hne', Hpne'. simpl.
    unfold Database.createUser. rewrite query_ok by assumption.
    now rewrite Hfree. }
  split; [now rewrite Hw1|].
  assert (Hfault : fault w1 = None) by now rewrite Hw1.
  rewrite (loginHandler_ok bcryptCompare w1 login name password s) by assumption.
  assert (Hfind : find (fun u => String.eqb (username u) name && is_active u)
                    (users w1) = Some row).
  { rewrite Hw1. cbn [users addLog setUsers]. apply find_snoc_fresh.
    - intros u Hu. apply andb_false_iff. left.
      destruct (String.eqb_spec (username u) name) as [Heq|]; [|reflexivity].
      exfalso. apply (name_free name (users w) Hfree).
      rewrite <- Heq. now apply in_map.
    - simpl. now rewrite String.eqb_refl. }
  rewrite Hfind. cbn [password_hash row]. rewrite Hbcrypt.
  eexists _, _. split; [reflexivity|]. split; [reflexivity|].
  unfold requireAuth, sessionUserId, loggedIn. simpl.
  pose proof (lastID_positive (users w)) as Hpos.
  destruct (Z.eqb_spec (Database.lastID (users w)) 0); [lia|reflexivity].
Qed.

Lemma created_account_can_log_in_witness :
  exists r w2,
    loginHandler Scenario.bcryptCompare (Scenario.login "dora" "pw")
      (snd (createUserHandler Sample.bcryptHash None (Scenario.creation "dora" "pw")
              Sample.liveWorld))
    = (Resolved (r, withSession (Scenario.login "dora" "pw")
                      (mkSession (Some 4) (Some "dora") (Some "user"))), w2)
    /\ statusOf r = 200.
Proof.
  destruct (created_account_can_log_in Sample.bcryptHash Scenario.bcryptCompare None
              (Scenario.creation "dora" "pw") (Scenario.login "dora" "pw")
              Sample.root "dora" "pw" (mkSession None None None) Sample.liveWorld
              eq_refl eq_refl eq_refl ltac:(discriminate) eq_refl ltac:(discriminate)
              eq_refl eq_refl eq_refl eq_refl eq_refl)
    as (_ & r & w2 & H1 & H2 & _).
  now exists r, w2.
Defined.

(** X17. A deactivated account is locked out of logging in but its session
    is not ended. After [deleteUser] deactivated a non-admin account of a
    table with unique identifiers and names, no lookup by identifier finds
    it, every login under its name is answered 400 or 401 whatever the
    password, and [attachUser] attaches nobody for its session; yet
    [requireAuth], which reads only the session, still lets that session
    through. *)
Theorem deactivated_account_locked_out (bcryptCompare : string -> string -> bool)
    (sqlInteger : string -> option Z) (target : string) (victim : User)
    (w : World) :
  fault w = None ->
  wellFormed (users w) ->
  In victim (users w) ->
  role victim <> "admin" ->
  sqlInteger target = Some (id victim) ->
  let w' := snd (Database.deleteUser sqlInteger target w) in
  Database.getUserById (id victim) w' = (Resolved None, w')
  /\ (forall login,
        bodyUsername login = Some (username victim) ->
        exists r w2,
          loginHandler bcryptCompare login w' = (Resolved (r, login), w2)
          /\ (statusOf r = 400 \/ statusOf r = 401))
  /\ (forall req,
        sessionUserId req = Some (id victim) ->
        attachUser req w' = (Resolved req, w')
        /\ requireAuth req w' = (Resolved (Next req), w')).
Proof.
  intros Hw (Hids & Hnames & _) Hin Hrole Hsql w'.
  assert (Hw' : fault w' = None).
  { subst w'. unfold Database.deleteUser. now rewrite query_ok. }
  assert (Husers : users w' = Database.deactivateMatching sqlInteger target (users w)).
  { subst w'. unfold Database.deleteUser. now rewrite query_ok. }
  assert (Hhit : Database.deleteMatches sqlInteger target victim = true).
  { unfold Database.deleteMatches, Database.isAdminRole. rewrite Hsql, Z.eqb_refl.
    apply String.eqb_neq in Hrole. now rewrite Hrole. }
  assert (Hrows : forall a, In a (users w') ->
            (id a = id victim \/ username a = username victim) ->
            is_active a = false).
  { intros a Ha Hsame. rewrite Husers in Ha. unfold Database.deactivateMatching in Ha.
    apply in_map_iff in Ha as (u & <- & Hu).
    assert (u = victim) as ->.
    { destruct (Database.deleteMatches sqlInteger target u);
        (destruct Hsame as [Hsame|Hsame];
         [now apply (unique_id (users w))|now apply (unique_name (users w))]). }
    now rewrite Hhit. }
  assert (Hbyid : find (fun u => Z.eqb (id u) (id victim) && is_active u) (users w')
                  = None).
  { apply find_all_false. intros a Ha.
    destruct (Z.eqb_spec (id a) (id victim)) as [Heq|]; [|reflexivity].
    now rewrite (Hrows a Ha (or_introl Heq)). }
  assert (Hbyname : find (fun u => String.eqb (username u) (username victim)
                                   && is_active u) (users w') = None).
  { apply find_all_false. intros a Ha.
    destruct (String.eqb_spec (username a) (username victim)) as [Heq|]; [|reflexivity].
    now rewrite (Hrows a Ha (or_intror Heq)). }
  refine (conj _ (conj _ _)).
  - rewrite getUserById_ok by assumption. now rewrite Hbyid.
  - intros login Hname.
    unfold loginHandler, tryCatch, mbind, M_bind, Database.validatePassword,
      mbind, M_bind.
    rewrite Hname. simpl.
    destruct (String.eqb (username victim) ""); simpl;
      [eexists _, _; split; [reflexivity|now left]|].
    destruct (truthy (bodyPassword login)); simpl;
      [|eexists _, _; split; [reflexivity|now left]].
    rewrite getUserByUsername_ok by assumption. rewrite Hbyname. simpl.
    eexists _, _; split; [reflexivity|now right].
  - intros req Hs. split.
    + unfold attachUser, tryCatch, mbind, M_bind. rewrite Hs.
      rewrite getUserById_ok by assumption. now rewrite Hbyid.
    + unfold requireAuth. now rewrite Hs.
Qed.

Lemma deactivated_account_locked_out_witness :
  let w' := snd (Database.deleteUser Sample.decimal "3" Scenario.world) in
  Database.getUserById 3 w' = (Resolved None, w')
  /\ exists r w2,
       loginHandler Scenario.bcryptCompare (Scenario.login "bob" "hunter2") w'
       = (Resolved (r, Scenario.login "bob" "hunter2"), w2)
       /\ (statusOf r = 400 \/ statusOf r = 401).
Proof.
  destruct (deactivated_account_locked_out Scenario.bcryptCompare Sample.decimal "3"
              Scenario.bob Scenario.world) as (H1 & H2 & _).
  - reflexivity.
  - repeat split; simpl.
    + repeat constructor; rewrite ?list_elem_of_In; simpl; lia.
    + repeat constructor; rewrite ?list_elem_of_In; simpl;
        intros H; repeat (destruct H as [H|H]; try discriminate H); exact H.
    + repeat constructor; simpl; lia.
  - simpl. auto.
  - simpl. discriminate.
  - reflexivity.
  - split; [exact H1|]. apply H2. reflexivity.
Defined.

(** ** The rate limiter, further *)

Section LimiterMore.

Variables windowMs max : Z.

(** What the limiter decides for a request, and the window it leaves for
    that client, depend only on that client's entry. *)
Lemma createRateLimiter_local (req : Request) (now : Z)
    (clients clients' : gmap string RateWindow) :
  clients !! ip req = clients' !! ip req ->
  (createRateLimiter windowMs max req now clients).2
  = (createRateLimiter windowMs max req now clients').2
  /\ (createRateLimiter windowMs max req now clients).1.2
     = (createRateLimiter windowMs max req now clients').1.2
  /\ (createRateLimiter windowMs max req now clients).1.1 !! ip req
     = (createRateLimiter windowMs max req now clients').1.1 !! ip req.
Proof.
  intros Heq. unfold createRateLimiter. rewrite <- Heq.
  destruct (clients !! ip req) as [client|]; simpl.
  - destruct (count _ >? max); simpl; now rewrite !lookup_insert_eq.
  - now rewrite !lookup_insert_eq.
Qed.

Lemma sweep_local (now : Z) (clientId : string)
    (clients clients' : gmap string RateWindow) :
  clients !! clientId = clients' !! clientId ->
  sweep now clients !! clientId = sweep now clients' !! clientId.
Proof.
  intros Heq. unfold sweep. rewrite !map_lookup_filter. now rewrite Heq.
Qed.

Lemma sweep_lookup (now : Z) (clientId : string) (clients : gmap string RateWindow) :
  sweep now clients !! clientId
  = match clients !! clientId with
    | Some client => if now >? resetTime client then None else Some client
    | None => None
    end.
Proof.
  unfold sweep. rewrite map_lookup_filter.
  destruct (clients !! clientId) as [client|]; simpl; [|reflexivity].
  destruct (Z.gtb_spec now (resetTime client)).
  - rewrite option_guard_False; [reflexivity|]. simpl. lia.
  - rewrite option_guard_True; [reflexivity|]. simpl. lia.
Qed.

End LimiterMore.

(** X18. The periodic sweep cannot be observed by clients. For a limit of
    at least 1, a request is decided the same way, logs the same, and
    leaves the same window for its client whether or not a sweep ran
    earlier: an entry the sweep removes is one the request would have
    reset. *)
Theorem sweep_is_transparent (windowMs max : Z) (req : Request) (now swept : Z)
    (clients : gmap string RateWindow) :
  1 <= max ->
  swept <= now ->
  let plain := createRateLimiter windowMs max req now clients in
  let afterSweep := createRateLimiter windowMs max req now (sweep swept clients) in
  plain.2 = afterSweep.2
  /\ plain.1.2 = afterSweep.1.2
  /\ plain.1.1 !! ip req = afterSweep.1.1 !! ip req.
Proof.
  intros Hmax Htime. cbv zeta.
  pose proof (sweep_lookup swept (ip req) clients) as Hsweep.
  destruct (clients !! ip req) as [client|] eqn:Hclient.
  - destruct (Z.gtb_spec swept (resetTime client)) as [Hgone|Hkept].
    + unfold createRateLimiter. rewrite Hclient, Hsweep. simpl.
      rewrite (gtb_true now (resetTime client)) by lia. simpl.
      rewrite (gtb_false 1 max) by assumption. simpl.
      now rewrite !lookup_insert_eq.
    + apply createRateLimiter_local. now rewrite Hsweep.
  - apply createRateLimiter_local. now rewrite Hsweep.
Qed.

Lemma sweep_is_transparent_witness :
  let clients := <["10.0.0.7" := mkWindow 10 5000]> (∅ : gmap string RateWindow) in
  (createRateLimiter 60000 10 Sample.loginAttempt 9000 clients).2
  = (createRateLimiter 60000 10 Sample.loginAttempt 9000 (sweep 8000 clients)).2.
Proof.
  apply (sweep_is_transparent 60000 10 Sample.loginAttempt 9000 8000
           (<["10.0.0.7" := mkWindow 10 5000]> ∅)); lia.
Defined.

(** X19. Clients do not interfere. The decisions a limiter takes for one
    client, and the window it ends with for that client, are the same when
    every request of every other client is taken out of the run. *)
Theorem other_clients_do_not_interfere (windowMs max : Z) (clientId : string)
    (events : list LimiterEvent) :
  forall clients clients' : gmap string RateWindow,
    clients !! clientId = clients' !! clientId ->
    let all := limiterRun windowMs max events clients in
    let own := limiterRun windowMs max (List.filter (concerns clientId) events)
                 clients' in
    decisionsFor clientId all.2 = decisionsFor clientId own.2
    /\ all.1 !! clientId = own.1 !! clientId.
Proof.
  induction events as [|e events IH]; intros clients clients' Heq.
  - simpl. split; [reflexivity|exact Heq].
  - destruct e as [req now|now]; simpl.
    + destruct (decide (ip req = clientId)) as [Hip|Hip].
      * rewrite bool_decide_eq_true_2 by assumption. simpl.
        rewrite <- Hip in Heq.
        destruct (createRateLimiter_local windowMs max req now clients clients' Heq)
          as (Hstep & _ & Hentry).
        destruct (createRateLimiter windowMs max req now clients)
          as [[next entries] step].
        destruct (createRateLimiter windowMs max req now clients')
          as [[next' entries'] step'].
        simpl in Hstep, Hentry. subst step'. rewrite Hip in Hentry.
        specialize (IH next next' Hentry).
        destruct (limiterRun windowMs max events next) as [final steps].
        destruct (limiterRun windowMs max (List.filter _ events) next')
          as [final' steps'].
        cbn [fst snd] in *. destruct IH as [IHsteps IHfinal].
        split; [|exact IHfinal]. unfold decisionsFor in *.
        rewrite !filter_cons_True by exact Hip.
        rewrite !fmap_cons. now rewrite IHsteps.
      * rewrite bool_decide_eq_false_2 by assumption. simpl.
        pose proof (createRateLimiter_other windowMs max req now clientId clients Hip)
          as Hother.
        destruct (createRateLimiter windowMs max req now clients)
          as [[next entries] step].
        cbn [fst] in Hother. rewrite Heq in Hother.
        specialize (IH next clients' Hother).
        destruct (limiterRun windowMs max events next) as [final steps].
        cbn [fst snd] in *. destruct IH as [IHsteps IHfinal].
        split; [|exact IHfinal]. unfold decisionsFor in *.
        now rewrite filter_cons_False by exact Hip.
    + apply IH. now apply sweep_local.
Qed.

Lemma other_clients_do_not_interfere_witness :
  decisionsFor "10.0.0.7"
    (limiterRun (15 * 60 * 1000) 10 (Arrive Sample.loginAttempt 1000 :: Sample.burst) ∅).2
  = decisionsFor "10.0.0.7"
      (limiterRun (15 * 60 * 1000) 10
         (List.filter (concerns "10.0.0.7")
            (Arrive Sample.loginAttempt 1000 :: Sample.burst)) ∅).2.
Proof.
  apply (other_clients_do_not_interfere (15 * 60 * 1000) 10 "10.0.0.7"
           (Arrive Sample.loginAttempt 1000 :: Sample.burst) ∅ ∅ eq_refl).
Defined.

(** ** Who may deactivate accounts *)

(** X20. The deletion route changes the users table only for an active
    administrator. When the session's user identifier names no active row
    with role [admin], the route answers 401, 403 or 500 and every row is
    as before, whatever account the request names. *)
Theorem deletion_requires_admin (jsNumber sqlInteger : string -> option Z)
    (req : Request) (w : World) :
  (forall u, In u (users w) -> sessionUserId req = Some (id u) ->
             is_active u = true -> role u <> "admin") ->
  exists r w',
    deleteUserRoute jsNumber sqlInteger req w = (Resolved r, w')
    /\ users w' = users w
    /\ (statusOf r = 401 \/ statusOf r = 403 \/ statusOf r = 500).
Proof.
  intros Hnone.
  unfold deleteUserRoute, mbind, M_bind, requireAdmin, tryCatch, mbind, M_bind,
    Database.getUserById, Database.query, adminDenied, mbind, M_bind.
  destruct (sessionUserId req) as [uid|] eqn:Hs.
  - destruct (fault w); simpl.
    + eexists _, _. split; [reflexivity|]. split; [reflexivity|auto].
    + destruct (find _ (users w)) as [u|] eqn:Hfind; simpl.
      * apply find_some in Hfind as [Hin [Hid Hact]%andb_true_iff].
        apply Z.eqb_eq in Hid. subst uid.
        pose proof (Hnone u Hin eq_refl Hact) as Hrole.
        apply String.eqb_neq in Hrole. unfold Database.isAdminRole. rewrite Hrole.
        simpl. eexists _, _. split; [reflexivity|]. split; [reflexivity|auto].
      * eexists _, _. split; [reflexivity|]. split; [reflexivity|auto].
  - simpl. eexists _, _. split; [reflexivity|]. split; [reflexivity|auto].
Qed.

Lemma deletion_requires_admin_witness :
  exists r w',
    deleteUserRoute Sample.decimal Sample.decimal
      (mkRequest "/api/admin/users/2" "10.0.0.7" (Some Sample.bobSession)
         (Some Sample.bob) None None None "2" "" None Sample.translate)
      Sample.liveWorld = (Resolved r, w')
    /\ users w' = users Sample.liveWorld
    /\ (statusOf r = 401 \/ statusOf r = 403 \/ statusOf r = 500).
Proof.
  apply deletion_requires_admin.
  intros u [<-|[<-|[<-|[]]]]; simpl; intros H; try discriminate H.
  intros _. discriminate.
Defined.
